(** * certificateBar: the certificate package (certificate/certhandler.go)

    A shallow embedding of the template-construction and verification policy
    of [package certificate], and the properties its specification states.

    Go values are modelled as follows.
    - [string] and [[]byte] : Go strings are byte sequences, so a Go string is
      a [String.string] (one [ascii] per byte) and a byte slice a
      [list Byte.byte].
    - [x509.KeyUsage] (a Go [int] used as a bit set) : [Z] with [Z.lor].
    - [*big.Int] holding a serial number : [Z].
    - slices : [list]; a nil slice and an empty slice are both [[]].
    - [interface{}] key handles : the inductive [KeyHandle], one constructor
      per dynamic type the package distinguishes.
    - [log.Fatal] (process exit) and run-time panics : explicit results
      ([option] for the builder, [Outcome] for the verifier).
    - log output is not part of the model; [Sign] and [WritePemToFile] only
      call into [crypto/x509], [encoding/pem] and [os] and are left out. *)

From Stdlib Require Import ZArith List Bool Lia Permutation.
From Stdlib Require Import Strings.String Strings.Ascii Strings.Byte.
Import ListNotations.

Local Open Scope Z_scope.
Local Open Scope string_scope.

(** ** crypto/x509/pkix: the subject name *)

Module pkix.

(** [pkix.Name], with the fields the package fills in.  [CommonName] is a
    plain Go string: its zero value is the empty string. *)
Record Name : Type := mkName {
  Country : list string;
  Organization : list string;
  OrganizationalUnit : list string;
  CommonName : string
}.

Definition withCommonName (n : Name) (cn : string) : Name :=
  {| Country := Country n;
     Organization := Organization n;
     OrganizationalUnit := OrganizationalUnit n;
     CommonName := cn |}.

(** The attribute types of a distinguished name that the builder can emit. *)
Inductive AttributeType : Type := oidCountry | oidOrganization
  | oidOrganizationalUnit | oidCommonName.

(** One attribute per value of a multi-valued field ([appendRDNs]). *)
Definition appendRDNs (acc : list (AttributeType * string))
    (values : list string) (oid : AttributeType) : list (AttributeType * string) :=
  (acc ++ map (fun v => (oid, v)) values)%list.

(** [Name.ToRDNSequence], restricted to the four fields above: each value of
    a list field becomes an attribute, and the common name becomes one only
    when [len(n.CommonName) > 0]. *)
Definition ToRDNSequence (n : Name) : list (AttributeType * string) :=
  let ret := appendRDNs [] (Country n) oidCountry in
  let ret := appendRDNs ret (Organization n) oidOrganization in
  let ret := appendRDNs ret (OrganizationalUnit n) oidOrganizationalUnit in
  if (0 <? String.length (CommonName n))%nat
  then appendRDNs ret [CommonName n] oidCommonName
  else ret.

End pkix.

(** ** crypto/x509 constants used by the package *)

Module x509.

(** [type KeyUsage int], the constants are [1 << iota]. *)
Definition KeyUsage := Z.

Definition KeyUsageDigitalSignature  : KeyUsage := Z.shiftl 1 0.
Definition KeyUsageContentCommitment : KeyUsage := Z.shiftl 1 1.
Definition KeyUsageKeyEncipherment   : KeyUsage := Z.shiftl 1 2.
Definition KeyUsageDataEncipherment  : KeyUsage := Z.shiftl 1 3.
Definition KeyUsageKeyAgreement      : KeyUsage := Z.shiftl 1 4.
Definition KeyUsageCertSign          : KeyUsage := Z.shiftl 1 5.
Definition KeyUsageCRLSign           : KeyUsage := Z.shiftl 1 6.
Definition KeyUsageEncipherOnly      : KeyUsage := Z.shiftl 1 7.
Definition KeyUsageDecipherOnly      : KeyUsage := Z.shiftl 1 8.

(** [type ExtKeyUsage int]. *)
Inductive ExtKeyUsage : Type :=
| ExtKeyUsageAny
| ExtKeyUsageServerAuth
| ExtKeyUsageClientAuth
| ExtKeyUsageCodeSigning
| ExtKeyUsageEmailProtection
| ExtKeyUsageIPSECEndSystem
| ExtKeyUsageIPSECTunnel
| ExtKeyUsageIPSECUser
| ExtKeyUsageTimeStamping
| ExtKeyUsageOCSPSigning
| ExtKeyUsageMicrosoftServerGatedCrypto
| ExtKeyUsageNetscapeServerGatedCrypto.

(** [type SignatureAlgorithm int]. *)
Inductive SignatureAlgorithm : Type :=
| UnknownSignatureAlgorithm
| MD2WithRSA
| MD5WithRSA
| SHA1WithRSA
| SHA256WithRSA
| SHA384WithRSA
| SHA512WithRSA
| DSAWithSHA1
| DSAWithSHA256
| ECDSAWithSHA1
| ECDSAWithSHA256
| ECDSAWithSHA384
| ECDSAWithSHA512
| SHA256WithRSAPSS
| SHA384WithRSAPSS
| SHA512WithRSAPSS
| PureEd25519.

(** [type PublicKeyAlgorithm int]: the key family of an algorithm. *)
Inductive PublicKeyAlgorithm : Type :=
| UnknownPublicKeyAlgorithm
| RSA
| DSA
| ECDSA
| Ed25519.

(** The hash functions the signature algorithms are built on. *)
Inductive Hash : Type := NoHash | MD2 | MD5 | SHA1 | SHA256 | SHA384 | SHA512.

(** The [pubKeyAlgo] and [hash] columns of the package's table of
    signature algorithms. *)
Definition pubKeyAlgo (a : SignatureAlgorithm) : PublicKeyAlgorithm :=
  match a with
  | UnknownSignatureAlgorithm => UnknownPublicKeyAlgorithm
  | MD2WithRSA | MD5WithRSA | SHA1WithRSA | SHA256WithRSA
  | SHA384WithRSA | SHA512WithRSA
  | SHA256WithRSAPSS | SHA384WithRSAPSS | SHA512WithRSAPSS => RSA
  | DSAWithSHA1 | DSAWithSHA256 => DSA
  | ECDSAWithSHA1 | ECDSAWithSHA256 | ECDSAWithSHA384 | ECDSAWithSHA512 => ECDSA
  | PureEd25519 => Ed25519
  end.

Definition hashOf (a : SignatureAlgorithm) : Hash :=
  match a with
  | UnknownSignatureAlgorithm | PureEd25519 => NoHash
  | MD2WithRSA => MD2
  | MD5WithRSA => MD5
  | SHA1WithRSA | DSAWithSHA1 | ECDSAWithSHA1 => SHA1
  | SHA256WithRSA | DSAWithSHA256 | ECDSAWithSHA256 | SHA256WithRSAPSS => SHA256
  | SHA384WithRSA | ECDSAWithSHA384 | SHA384WithRSAPSS => SHA384
  | SHA512WithRSA | ECDSAWithSHA512 | SHA512WithRSAPSS => SHA512
  end.


(** [time.Time], as an instant on the integer time line. *)
Definition Time := Z.

(** [x509.Certificate], with the fields the builder sets.  A field the
    builder leaves out keeps its zero value. *)
Record Certificate : Type := mkCertificate {
  SerialNumber : Z;
  Subject : pkix.Name;
  NotBefore : Time;
  NotAfter : Time;
  SubjectKeyId : list byte;
  BasicConstraintsValid : bool;
  SigAlgorithm : SignatureAlgorithm;   (* field SignatureAlgorithm *)
  IsCA : bool;
  ExtKeyUsages : list ExtKeyUsage;     (* field ExtKeyUsage *)
  KeyUsages : KeyUsage;                (* field KeyUsage *)
  DNSNames : list string
}.

Definition withSubject (c : Certificate) (n : pkix.Name) : Certificate :=
  mkCertificate (SerialNumber c) n (NotBefore c) (NotAfter c) (SubjectKeyId c)
    (BasicConstraintsValid c) (SigAlgorithm c) (IsCA c) (ExtKeyUsages c)
    (KeyUsages c) (DNSNames c).

Definition withDNSNames (c : Certificate) (names : list string) : Certificate :=
  mkCertificate (SerialNumber c) (Subject c) (NotBefore c) (NotAfter c)
    (SubjectKeyId c) (BasicConstraintsValid c) (SigAlgorithm c) (IsCA c)
    (ExtKeyUsages c) (KeyUsages c) names.

(** *** Parsing and chain verification

    The package calls [ParseCertificate], [ParseCertificates], [NewCertPool],
    [CertPool.AddCert] and [Certificate.Verify].  They are taken as an
    interface.  A [*Certificate] is an [option Certificate], [None] being the
    nil pointer that the parsers return together with an error; an operation
    that panics yields [None] ([AddCert]) or [VerifyPanics] ([Verify]). *)

Inductive VerifyOutcome : Type :=
| VerifyOk          (* chains returned, error is nil *)
| VerifyError       (* a non-nil error *)
| VerifyPanics.     (* run-time panic inside the call *)

(** [x509.VerifyOptions], with the fields the package sets. *)
Record VerifyOptions (Pool : Type) : Type := mkVerifyOptions {
  DNSName : string;
  Roots : Pool;
  Intermediates : Pool
}.
Arguments mkVerifyOptions {Pool} _ _ _.
Arguments DNSName {Pool} _.
Arguments Roots {Pool} _.
Arguments Intermediates {Pool} _.

Class Library : Type := {
  CertPool : Type;
  NewCertPool : CertPool;
  AddCert : CertPool -> option Certificate -> option CertPool;
  ParseCertificate : list byte -> option Certificate;
  ParseCertificates : list byte -> option (list Certificate);
  Verify : option Certificate -> VerifyOptions CertPool -> VerifyOutcome
}.

End x509.

(** ** math/big: the method [SetBytes] of [Int] *)

Module big.

Definition byteVal (b : byte) : Z := Z.of_N (Byte.to_N b).

(** [SetBytes] interprets the buffer as the bytes of a big-endian unsigned
    integer: every further byte shifts the value read so far by eight bits. *)
Definition SetBytes (buf : list byte) : Z :=
  fold_left (fun z b => z * 256 + byteVal b) buf 0.

End big.

(** ** crypto/sha1 *)

Module sha1.

Definition Size : nat := 20.
Definition chunk : nat := 64.

(** [uint32] arithmetic, wrap-around written out. *)
Definition u32 (z : Z) : Z := z mod 2 ^ 32.
Definition add32 (a b : Z) : Z := u32 (a + b).
Definition not32 (a : Z) : Z := Z.lxor a 0xFFFFFFFF.
Definition RotateLeft32 (x : Z) (k : Z) : Z :=
  Z.lor (u32 (Z.shiftl x k)) (Z.shiftr x (32 - k)).

Definition init0 : Z := 0x67452301.
Definition init1 : Z := 0xEFCDAB89.
Definition init2 : Z := 0x98BADCFE.
Definition init3 : Z := 0x10325476.
Definition init4 : Z := 0xC3D2E1F0.

Definition K0 : Z := 0x5A827999.
Definition K1 : Z := 0x6ED9EBA1.
Definition K2 : Z := 0x8F1BBCDC.
Definition K3 : Z := 0xCA62C1D6.

Definition state : Type := (Z * Z * Z * Z * Z)%type.

(** The running hash: the five chaining words [h], the bytes [x] not yet
    forming a whole block, and the number [len] of bytes written. *)
Record digest : Type := mkDigest {
  h : state;
  x : list byte;
  len : Z
}.

Definition New : digest :=
  mkDigest (init0, init1, init2, init3, init4) [] 0.

(** Big-endian [uint32] words of a block. *)
Fixpoint words (p : list byte) : list Z :=
  match p with
  | b0 :: b1 :: b2 :: b3 :: rest =>
      Z.lor (Z.lor (Z.lor (Z.shiftl (big.byteVal b0) 24)
                          (Z.shiftl (big.byteVal b1) 16))
                   (Z.shiftl (big.byteVal b2) 8))
            (big.byteVal b3) :: words rest
  | _ => []
  end.

(** The message schedule, newest word first: word [i] is the rotation of
    [w[i-3] ^ w[i-8] ^ w[i-14] ^ w[i-16]]. *)
Fixpoint schedule (n : nat) (w : list Z) : list Z :=
  match n with
  | O => w
  | S n' =>
      let tmp := Z.lxor (Z.lxor (Z.lxor (nth 2 w 0) (nth 7 w 0)) (nth 13 w 0))
                        (nth 15 w 0) in
      schedule n' (RotateLeft32 tmp 1 :: w)
  end.

Definition round (s : state) (iw : nat * Z) : state :=
  let '(a, b, c, d, e) := s in
  let '(i, w) := iw in
  let '(f, k) :=
    if (i <? 20)%nat then (Z.lor (Z.land b c) (Z.land (not32 b) d), K0)
    else if (i <? 40)%nat then (Z.lxor (Z.lxor b c) d, K1)
    else if (i <? 60)%nat then (Z.lor (Z.land (Z.lor b c) d) (Z.land b c), K2)
    else (Z.lxor (Z.lxor b c) d, K3) in
  let t := add32 (add32 (add32 (add32 (RotateLeft32 a 5) f) e) w) k in
  (t, a, RotateLeft32 b 30, c, d).

(** One 64-byte block. *)
Definition compress (s : state) (p : list byte) : state :=
  let w := rev (schedule 64 (rev (words p))) in
  let '(a, b, c, d, e) := fold_left round (combine (seq 0 80) w) s in
  let '(h0, h1, h2, h3, h4) := s in
  (add32 h0 a, add32 h1 b, add32 h2 c, add32 h3 d, add32 h4 e).

(** [blockGeneric]: [for len(p) >= chunk] consume one block.  The loop runs
    at most [length p] times, which bounds the recursion. *)
Fixpoint blockLoop (fuel : nat) (s : state) (p : list byte) : state * list byte :=
  match fuel with
  | O => (s, p)
  | S fuel' =>
      if (chunk <=? List.length p)%nat
      then blockLoop fuel' (compress s (firstn chunk p)) (skipn chunk p)
      else (s, p)
  end.

Definition block (s : state) (p : list byte) : state * list byte :=
  blockLoop (List.length p) s p.

(** [Write]: whole blocks are hashed, the remainder is kept in [x]. *)
Definition Write (d : digest) (p : list byte) : digest :=
  let '(s, rest) := block (h d) (x d ++ p)%list in
  mkDigest s rest ((len d + Z.of_nat (List.length p)) mod 2 ^ 64).

Definition byteOfZ (z : Z) : byte :=
  match Byte.of_N (Z.to_N (z mod 256)) with
  | Some b => b
  | None => x00
  end.

Definition PutUint32 (v : Z) : list byte :=
  [byteOfZ (Z.shiftr v 24); byteOfZ (Z.shiftr v 16); byteOfZ (Z.shiftr v 8);
   byteOfZ v].

Definition PutUint64 (v : Z) : list byte :=
  (PutUint32 (Z.shiftr v 32) ++ PutUint32 (v mod 2 ^ 32))%list.

(** [checkSum]: pad with [0x80] and zeros up to 56 bytes mod 64, append the
    length in bits, and emit the five chaining words. *)
Definition checkSum (d : digest) : list byte :=
  let l := len d in
  let tmp := (x80 :: repeat x00 63)%list in
  let d :=
    if (l mod 64 <? 56)%Z
    then Write d (firstn (Z.to_nat (56 - l mod 64)) tmp)
    else Write d (firstn (Z.to_nat (64 + 56 - l mod 64)) tmp) in
  let d := Write d (PutUint64 ((l * 8) mod 2 ^ 64)) in
  let '(h0, h1, h2, h3, h4) := h d in
  (PutUint32 h0 ++ PutUint32 h1 ++ PutUint32 h2 ++ PutUint32 h3
     ++ PutUint32 h4)%list.

(** [Sum] works on a copy of the digest and appends the hash to [b]. *)
Definition Sum (d : digest) (b : list byte) : list byte :=
  (b ++ checkSum d)%list.

End sha1.

(** ** Package certificate *)

(** A key handle passed as [interface{}]: the dynamic types that the package
    and its [key] helper tell apart.  Key material is kept as the integers
    the Go structs hold. *)
Inductive KeyHandle : Type :=
| RsaPrivateKey (n e d : Z)
| EcdsaPrivateKey (x y d : Z)
| RsaPublicKey (n e : Z)
| EcdsaPublicKey (x y : Z)
| OtherValue.

(** The helper package [certificateBar/key]: its two functions used here are
    taken as parameters.  [PublicKeyBitArray] returns the serialization and
    an error flag ([true] for a non-nil error). *)
Module key.

Class Package : Type := {
  PublicKey : KeyHandle -> KeyHandle;
  PublicKeyBitArray : KeyHandle -> list byte * bool
}.

End key.

(** The descriptor [type Certificate struct]. *)
Record Certificate : Type := mkCertificate {
  Id : string;
  Country : string;
  Organization : string;
  OrganizationalUnit : string;
  CommonName : string;
  AlternativeNames : list string;
  Usage : list string;
  CA : bool;
  PrivateKey : KeyHandle;
  SignatureAlg : string;
  ValidFrom : x509.Time;
  ValidTo : x509.Time
}.

(** *** Usage policy *)

Definition getDefaultKeyUsage (ca : bool) : x509.KeyUsage :=
  if ca then Z.lor x509.KeyUsageCRLSign x509.KeyUsageCertSign
  else Z.lor x509.KeyUsageKeyEncipherment x509.KeyUsageDigitalSignature.

Definition getDefaultExtKeyUsage (ca : bool) : list x509.ExtKeyUsage :=
  if ca then []
  else [x509.ExtKeyUsageClientAuth; x509.ExtKeyUsageServerAuth].

(** One iteration of [for _, key := range usage]: the [switch] on the token,
    acting on the two accumulators. *)
Definition usageStep (acc : x509.KeyUsage * list x509.ExtKeyUsage) (key : string)
  : x509.KeyUsage * list x509.ExtKeyUsage :=
  let '(keyUsage, extKeyUsage) := acc in
  if key =? "crlsign" then (Z.lor keyUsage x509.KeyUsageCRLSign, extKeyUsage)
  else if key =? "certsign" then (Z.lor keyUsage x509.KeyUsageCertSign, extKeyUsage)
  else if key =? "encipherment" then (Z.lor keyUsage x509.KeyUsageKeyEncipherment, extKeyUsage)
  else if key =? "signature" then (Z.lor keyUsage x509.KeyUsageDigitalSignature, extKeyUsage)
  else if key =? "contentcommitment" then (Z.lor keyUsage x509.KeyUsageContentCommitment, extKeyUsage)
  else if key =? "clientauth" then (keyUsage, (extKeyUsage ++ [x509.ExtKeyUsageClientAuth])%list)
  else if key =? "serverauth" then (keyUsage, (extKeyUsage ++ [x509.ExtKeyUsageServerAuth])%list)
  else (keyUsage, extKeyUsage).

Definition getUsage (usage : list string) (ca : bool)
  : x509.KeyUsage * list x509.ExtKeyUsage :=
  if (List.length usage =? 0)%nat
  then (getDefaultKeyUsage ca, getDefaultExtKeyUsage ca)
  else fold_left usageStep usage (0, []).

(** *** Signature algorithm selection *)

Definition findEcdsaSignALg (algType : string) : x509.SignatureAlgorithm :=
  if algType =? "SHA1" then x509.ECDSAWithSHA1
  else if algType =? "SHA256" then x509.ECDSAWithSHA256
  else if algType =? "SHA384" then x509.ECDSAWithSHA384
  else if algType =? "SHA512" then x509.ECDSAWithSHA512
  else x509.ECDSAWithSHA256.

Definition findRsaSignALg (algType : string) : x509.SignatureAlgorithm :=
  if algType =? "SHA1" then x509.SHA1WithRSA
  else if algType =? "SHA256" then x509.SHA256WithRSA
  else if algType =? "SHA384" then x509.SHA384WithRSA
  else if algType =? "SHA512" then x509.SHA512WithRSA
  else x509.SHA256WithRSA.

(** The type switch on the key handle.  [None] is the [default] branch:
    [log.Fatal] ends the process there, so the [return] that follows it is
    never reached. *)
Definition signatureAlgorithm (algType : string) (privateKey : KeyHandle)
  : option x509.SignatureAlgorithm :=
  match privateKey with
  | RsaPrivateKey _ _ _ => Some (findRsaSignALg algType)
  | EcdsaPrivateKey _ _ _ => Some (findEcdsaSignALg algType)
  | _ => None
  end.

(** The loop returns [true] at the first element equal to [value]. *)
Fixpoint isStringInList (value : string) (l : list string) : bool :=
  match l with
  | [] => false
  | v :: rest => if v =? value then true else isStringInList value rest
  end.

(** *** Key identifier and template *)

Section Builder.

Context {K : key.Package}.

(** The error of [PublicKeyBitArray] is discarded; the bytes returned with
    it are hashed whatever they are. *)
Definition keyIdentifier (pub : KeyHandle) : list byte :=
  let '(pbyte, _) := key.PublicKeyBitArray pub in
  let hasher := sha1.New in
  let hasher := sha1.Write hasher pbyte in
  sha1.Sum hasher [].

(** [None] when [signatureAlgorithm] ends the process; otherwise the
    template, built in the order of the source: the struct literal, then the
    common name, then the DNS names. *)
Definition CreateCertificateTemplate (data : Certificate) : option x509.Certificate :=
  let pub := key.PublicKey (PrivateKey data) in
  let subjectKeyId := keyIdentifier pub in
  let '(keyUsage, extKeyUsage) := getUsage (Usage data) (CA data) in
  match signatureAlgorithm (SignatureAlg data) (PrivateKey data) with
  | None => None
  | Some alg =>
      let cert :=
        {| x509.SerialNumber := big.SetBytes (list_byte_of_string (Id data));
           x509.Subject :=
             {| pkix.Country := [Country data];
                pkix.Organization := [Organization data];
                pkix.OrganizationalUnit := [OrganizationalUnit data];
                pkix.CommonName := EmptyString |};
           x509.NotBefore := ValidFrom data;
           x509.NotAfter := ValidTo data;
           x509.SubjectKeyId := subjectKeyId;
           x509.BasicConstraintsValid := true;
           x509.SigAlgorithm := alg;
           x509.IsCA := CA data;
           x509.ExtKeyUsages := extKeyUsage;
           x509.KeyUsages := keyUsage;
           x509.DNSNames := [] |} in
      let cert :=
        if negb (CommonName data =? EmptyString)
        then x509.withSubject cert
               (pkix.withCommonName (x509.Subject cert) (CommonName data))
        else cert in
      let cert :=
        if (0 <? List.length (AlternativeNames data))%nat
        then
          let cert := x509.withDNSNames cert (AlternativeNames data) in
          if negb (isStringInList (CommonName data) (AlternativeNames data))
          then x509.withDNSNames cert
                 (x509.DNSNames cert ++ [CommonName data])%list
          else cert
        else cert in
      Some cert
  end.

End Builder.

(** *** Chain verification *)

(** How a call ends: it returns a value, or a run-time panic unwinds it. *)
Inductive Outcome (A : Type) : Type :=
| Returned (a : A)
| Panicked.
Arguments Returned {A} a.
Arguments Panicked {A}.

Definition bindPanic {A B : Type} (m : option A) (k : A -> Outcome B) : Outcome B :=
  match m with
  | Some a => k a
  | None => Panicked
  end.

Notation "'do' x <- m ; k" := (bindPanic m (fun x => k))
  (at level 10, x name, m at level 100, k at level 200).

Section Verifier.

Context {L : x509.Library}.

(** [for _, cert := range interCerts { interCaPool.AddCert(cert) }] *)
Fixpoint addAll (pool : x509.CertPool) (certs : list x509.Certificate)
  : option x509.CertPool :=
  match certs with
  | [] => Some pool
  | cert :: rest =>
      match x509.AddCert pool (Some cert) with
      | Some pool' => addAll pool' rest
      | None => None
      end
  end.

(** The three parse errors are discarded, so the pointers and the slice are
    used as returned.  On the error path the log line reads
    [clientCert.Subject.CommonName], a nil dereference when the leaf did not
    parse. *)
Definition CheckCertificate (dnsName : string)
    (caBytes interCaBytes clientBytes : list byte) : Outcome bool :=
  let rootPool := x509.NewCertPool in
  let rootCert := x509.ParseCertificate caBytes in
  do rootPool <- x509.AddCert rootPool rootCert;
  let interCaPool := x509.NewCertPool in
  let interCerts :=
    match x509.ParseCertificates interCaBytes with
    | Some certs => certs
    | None => []
    end in
  do interCaPool <- addAll interCaPool interCerts;
  let opts :=
    {| x509.DNSName := dnsName;
       x509.Roots := rootPool;
       x509.Intermediates := interCaPool |} in
  let clientCert := x509.ParseCertificate clientBytes in
  match x509.Verify clientCert opts with
  | x509.VerifyPanics => Panicked
  | x509.VerifyError =>
      match clientCert with
      | Some _ => Returned false
      | None => Panicked
      end
  | x509.VerifyOk => Returned true
  end.

End Verifier.

(** ** The specification's tables *)

(** The usage tokens the specification lists, with what each stands for. *)
Definition keyUsageTokens : list (string * x509.KeyUsage) :=
  [ ("crlsign", x509.KeyUsageCRLSign);
    ("certsign", x509.KeyUsageCertSign);
    ("encipherment", x509.KeyUsageKeyEncipherment);
    ("signature", x509.KeyUsageDigitalSignature);
    ("contentcommitment", x509.KeyUsageContentCommitment) ].

Definition extUsageTokens : list (string * x509.ExtKeyUsage) :=
  [ ("clientauth", x509.ExtKeyUsageClientAuth);
    ("serverauth", x509.ExtKeyUsageServerAuth) ].

Fixpoint lookup {A : Type} (token : string) (table : list (string * A)) : option A :=
  match table with
  | [] => None
  | (name, a) :: rest => if token =? name then Some a else lookup token rest
  end.

(** A token is recognized when one of the two tables lists it. *)
Definition recognized (token : string) : bool :=
  match lookup token keyUsageTokens, lookup token extUsageTokens with
  | None, None => false
  | _, _ => true
  end.

(** The OR of the bits of the tokens that name a key-usage bit. *)
Fixpoint orOfBits (tokens : list string) : x509.KeyUsage :=
  match tokens with
  | [] => 0
  | t :: rest =>
      match lookup t keyUsageTokens with
      | Some bit => Z.lor bit (orOfBits rest)
      | None => orOfBits rest
      end
  end.

(** Whether some token of the list names a key-usage bit that has bit [i]. *)
Definition someTokenHasBit (tokens : list string) (i : Z) : bool :=
  existsb (fun t => match lookup t keyUsageTokens with
                    | Some bit => Z.testbit bit i
                    | None => false
                    end) tokens.

(** One extended-usage entry per occurrence of an extended-usage token, in
    the order of the tokens. *)
Fixpoint extEntries (tokens : list string) : list x509.ExtKeyUsage :=
  match tokens with
  | [] => []
  | t :: rest =>
      match lookup t extUsageTokens with
      | Some e => e :: extEntries rest
      | None => extEntries rest
      end
  end.

(** The key family of a private-key handle, when it has one of the two
    supported kinds. *)
Definition keyFamily (k : KeyHandle) : option x509.PublicKeyAlgorithm :=
  match k with
  | RsaPrivateKey _ _ _ => Some x509.RSA
  | EcdsaPrivateKey _ _ _ => Some x509.ECDSA
  | _ => None
  end.

Definition hashTokens : list (string * x509.Hash) :=
  [ ("SHA1", x509.SHA1); ("SHA256", x509.SHA256);
    ("SHA384", x509.SHA384); ("SHA512", x509.SHA512) ].

(** The hash a token asks for, SHA-256 when the token is not in the table. *)
Definition requestedHash (token : string) : x509.Hash :=
  match lookup token hashTokens with
  | Some hash => hash
  | None => x509.SHA256
  end.

(** The algorithm of a family for a hash. *)
Definition algorithmFor (fam : x509.PublicKeyAlgorithm) (hash : x509.Hash)
  : x509.SignatureAlgorithm :=
  match fam, hash with
  | x509.RSA, x509.SHA1 => x509.SHA1WithRSA
  | x509.RSA, x509.SHA256 => x509.SHA256WithRSA
  | x509.RSA, x509.SHA384 => x509.SHA384WithRSA
  | x509.RSA, x509.SHA512 => x509.SHA512WithRSA
  | x509.ECDSA, x509.SHA1 => x509.ECDSAWithSHA1
  | x509.ECDSA, x509.SHA256 => x509.ECDSAWithSHA256
  | x509.ECDSA, x509.SHA384 => x509.ECDSAWithSHA384
  | x509.ECDSA, x509.SHA512 => x509.ECDSAWithSHA512
  | _, _ => x509.UnknownSignatureAlgorithm
  end.

(** The value of a byte string read as a numeral in base 256, most
    significant digit first. *)
Fixpoint bigEndian (buf : list byte) : Z :=
  match buf with
  | [] => 0
  | b :: rest => big.byteVal b * 256 ^ Z.of_nat (List.length rest) + bigEndian rest
  end.

(** The first byte of an id, if it has one. *)
Definition leadingByte (id : string) : option byte :=
  hd_error (list_byte_of_string id).

Definition supportedKey (k : KeyHandle) : bool :=
  match keyFamily k with
  | Some _ => true
  | None => false
  end.

Definition sameType (a b : pkix.AttributeType) : bool :=
  match a, b with
  | pkix.oidCountry, pkix.oidCountry
  | pkix.oidOrganization, pkix.oidOrganization
  | pkix.oidOrganizationalUnit, pkix.oidOrganizationalUnit
  | pkix.oidCommonName, pkix.oidCommonName => true
  | _, _ => false
  end.

(** The values a distinguished name carries for one attribute type. *)
Definition attributeValues (oid : pkix.AttributeType)
    (rdn : list (pkix.AttributeType * string)) : list string :=
  map snd (filter (fun a => sameType (fst a) oid) rdn).

(** ** Sample instances

    Concrete stand-ins for the two interfaces, used only to run the
    definitions on examples; every general statement below holds for all
    instances. *)

(** A [key] package that projects the public half of a private key and
    serializes a public key as its two integers, eight bytes each. *)
Definition sampleKeys : key.Package :=
  {| key.PublicKey := fun priv =>
       match priv with
       | RsaPrivateKey n e _ => RsaPublicKey n e
       | EcdsaPrivateKey x y _ => EcdsaPublicKey x y
       | other => other
       end;
     key.PublicKeyBitArray := fun pub =>
       match pub with
       | RsaPublicKey n e => ((sha1.PutUint64 n ++ sha1.PutUint64 e)%list, false)
       | EcdsaPublicKey x y => ((sha1.PutUint64 x ++ sha1.PutUint64 y)%list, false)
       | _ => ([], true)
       end |}.

(** A descriptor of an end-entity certificate with an RSA key. *)
Definition leafDescriptor (id commonName : string) (names : list string)
  : Certificate :=
  {| Id := id;
     Country := "SE";
     Organization := "Example";
     OrganizationalUnit := "Web";
     CommonName := commonName;
     AlternativeNames := names;
     Usage := [];
     CA := false;
     PrivateKey := RsaPrivateKey 3233 17 413;
     SignatureAlg := "SHA256";
     ValidFrom := 0;
     ValidTo := 86400 |}.

(** A descriptor with every naming field left empty, and an ECDSA key. *)
Definition anonymousDescriptor : Certificate :=
  {| Id := "7";
     Country := EmptyString;
     Organization := EmptyString;
     OrganizationalUnit := EmptyString;
     CommonName := EmptyString;
     AlternativeNames := [];
     Usage := [];
     CA := true;
     PrivateKey := EcdsaPrivateKey 4 5 6;
     SignatureAlg := EmptyString;
     ValidFrom := 0;
     ValidTo := 86400 |}.

(** The one-byte id [A], and the two-byte id made of a zero byte and [A]. *)
Definition idA : string := "A".
Definition idNulA : string := String (ascii_of_nat 0) "A".

Definition sampleCertificate : x509.Certificate :=
  {| x509.SerialNumber := 1;
     x509.Subject := pkix.mkName ["SE"] ["Example"] ["Web"] "example.com";
     x509.NotBefore := 0;
     x509.NotAfter := 86400;
     x509.SubjectKeyId := [];
     x509.BasicConstraintsValid := true;
     x509.SigAlgorithm := x509.SHA256WithRSA;
     x509.IsCA := false;
     x509.ExtKeyUsages := [];
     x509.KeyUsages := 0;
     x509.DNSNames := ["example.com"] |}.

(** A library in which input starting with the DER sequence tag [0x30]
    parses (always to [sampleCertificate]) and any other input is rejected;
    [AddCert] and [Verify] panic on the nil pointer, and verification
    succeeds when the host name is among the DNS names and a root is
    present. *)
Definition sampleLibrary : x509.Library :=
  {| x509.CertPool := list x509.Certificate;
     x509.NewCertPool := [];
     x509.AddCert := fun pool c =>
       match c with
       | Some c => Some (pool ++ [c])%list
       | None => None
       end;
     x509.ParseCertificate := fun der =>
       match der with
       | x30 :: _ => Some sampleCertificate
       | _ => None
       end;
     x509.ParseCertificates := fun der =>
       match der with
       | [] => Some []
       | x30 :: _ => Some [sampleCertificate]
       | _ => None
       end;
     x509.Verify := fun c opts =>
       match c with
       | None => x509.VerifyPanics
       | Some c =>
           if isStringInList (x509.DNSName opts) (x509.DNSNames c)
              && (0 <? List.length (x509.Roots opts))%nat
           then x509.VerifyOk
           else x509.VerifyError
       end |}.

(** ** Further definitions for the properties of the code *)

(** The key-usage bits that [getUsage] can set. *)
Definition allowedKeyUsage : x509.KeyUsage :=
  Z.lor x509.KeyUsageCRLSign
    (Z.lor x509.KeyUsageCertSign
       (Z.lor x509.KeyUsageKeyEncipherment
          (Z.lor x509.KeyUsageDigitalSignature x509.KeyUsageContentCommitment))).

(** A byte string without its leading zero bytes. *)
Fixpoint stripLeadingZeros (buf : list byte) : list byte :=
  match buf with
  | [] => []
  | b :: rest => if Byte.eqb b x00 then stripLeadingZeros rest else b :: rest
  end.

(** A descriptor of a certificate authority with the given usage tokens. *)
Definition caDescriptor (usage : list string) : Certificate :=
  {| Id := "root";
     Country := "SE";
     Organization := "Example";
     OrganizationalUnit := "CA";
     CommonName := "Example Root";
     AlternativeNames := [];
     Usage := usage;
     CA := true;
     PrivateKey := EcdsaPrivateKey 4 5 6;
     SignatureAlg := "SHA384";
     ValidFrom := 0;
     ValidTo := 86400 |}.

(** ** Usage policy: properties *)

Ltac token_cases t :=
  repeat match goal with
         | |- context [String.eqb t ?lit] =>
             let E := fresh "E" in
             destruct (String.eqb t lit) eqn:E;
             [ apply String.eqb_eq in E; subst t; simpl | ]
         end.

Lemma usageStep_spec (k : x509.KeyUsage) (e : list x509.ExtKeyUsage) (t : string) :
  usageStep (k, e) t =
  (match lookup t keyUsageTokens with Some bit => Z.lor k bit | None => k end,
   match lookup t extUsageTokens with Some x => (e ++ [x])%list | None => e end).
Proof.
  unfold usageStep, keyUsageTokens, extUsageTokens, lookup.
  token_cases t; reflexivity.
Qed.

Lemma usage_loop (usage : list string) :
  forall k e,
    fold_left usageStep usage (k, e) =
    (Z.lor k (orOfBits usage), (e ++ extEntries usage)%list).
Proof.
  induction usage as [| t rest IH]; intros k e.
  - simpl. now rewrite Z.lor_0_r, app_nil_r.
  - cbn [fold_left orOfBits extEntries].
    rewrite usageStep_spec.
    destruct (lookup t keyUsageTokens) as [bit |];
      destruct (lookup t extUsageTokens) as [x |];
      rewrite IH; f_equal;
      rewrite <- ?Z.lor_assoc, <- ?app_assoc; reflexivity.
Qed.

Lemma getUsage_nonempty (usage : list string) (ca : bool) :
  usage <> [] -> getUsage usage ca = (orOfBits usage, extEntries usage).
Proof.
  intros Hne. unfold getUsage.
  destruct usage as [| t rest]; [congruence |].
  cbn [List.length Nat.eqb].
  now rewrite usage_loop.
Qed.

Lemma orOfBits_testbit (tokens : list string) (i : Z) :
  Z.testbit (orOfBits tokens) i = someTokenHasBit tokens i.
Proof.
  unfold someTokenHasBit.
  induction tokens as [| t rest IH]; cbn [orOfBits existsb].
  - apply Z.testbit_0_l.
  - destruct (lookup t keyUsageTokens) as [bit |].
    + now rewrite Z.lor_spec, IH.
    + now rewrite IH.
Qed.

Lemma unrecognized_lookups (t : string) :
  recognized t = false ->
  lookup t keyUsageTokens = None /\ lookup t extUsageTokens = None.
Proof.
  unfold recognized.
  destruct (lookup t keyUsageTokens), (lookup t extUsageTokens);
    intros H; try discriminate; now split.
Qed.

Lemma unrecognized_contribute_nothing (usage : list string) :
  (forall t, In t usage -> recognized t = false) ->
  orOfBits usage = 0 /\ extEntries usage = [].
Proof.
  induction usage as [| t rest IH]; intros Hun; [now split |].
  destruct (unrecognized_lookups t) as [Hk He]; [apply Hun; now left |].
  cbn [orOfBits extEntries]. rewrite Hk, He. apply IH. intros u Hu. apply Hun. now right.
Qed.

Lemma small_bits (v i : Z) (n : Z) :
  0 <= v < 2 ^ n -> n <= i -> Z.testbit v i = false.
Proof.
  intros Hv Hi.
  destruct (Z.eq_dec v 0) as [-> | Hnz]; [apply Z.testbit_0_l |].
  apply Z.bits_above_log2; [lia |].
  assert (Z.log2 v < n); [| lia].
  apply Z.log2_lt_pow2; lia.
Qed.

(** C5. With no usage tokens, [getUsage] gives a CA the key-usage bits
    CertSign and CRLSign, and no others, with an empty extended-usage list;
    it gives a non-CA the bits KeyEncipherment and DigitalSignature, and no
    others, with the extended-usage list ClientAuth, ServerAuth. *)
Theorem getUsage_no_tokens :
  getUsage [] true = (Z.lor x509.KeyUsageCertSign x509.KeyUsageCRLSign, []) /\
  getUsage [] false =
    (Z.lor x509.KeyUsageKeyEncipherment x509.KeyUsageDigitalSignature,
     [x509.ExtKeyUsageClientAuth; x509.ExtKeyUsageServerAuth]) /\
  (forall i, Z.testbit (fst (getUsage [] true)) i = (i =? 5)%Z || (i =? 6)%Z) /\
  (forall i, Z.testbit (fst (getUsage [] false)) i = (i =? 2)%Z || (i =? 0)%Z).
Proof.
  repeat split.
  - intros i. cbn.
    destruct (Z_lt_le_dec i 0) as [Hneg | Hpos].
    + rewrite Z.testbit_neg_r by assumption.
      destruct (Z.eqb_spec i 5), (Z.eqb_spec i 6); try lia; reflexivity.
    + destruct (Z_lt_le_dec i 7) as [Hlt | Hge].
      * assert (i = 0 \/ i = 1 \/ i = 2 \/ i = 3 \/ i = 4 \/ i = 5 \/ i = 6)
          as Hc by lia.
        repeat (destruct Hc as [-> | Hc]); try subst i; reflexivity.
      * rewrite (small_bits 96 i 7) by lia.
        destruct (Z.eqb_spec i 5), (Z.eqb_spec i 6); try lia; reflexivity.
  - intros i. cbn.
    destruct (Z_lt_le_dec i 0) as [Hneg | Hpos].
    + rewrite Z.testbit_neg_r by assumption.
      destruct (Z.eqb_spec i 2), (Z.eqb_spec i 0); try lia; reflexivity.
    + destruct (Z_lt_le_dec i 3) as [Hlt | Hge].
      * assert (i = 0 \/ i = 1 \/ i = 2) as Hc by lia.
        repeat (destruct Hc as [-> | Hc]); try subst i; reflexivity.
      * rewrite (small_bits 5 i 3) by lia.
        destruct (Z.eqb_spec i 2), (Z.eqb_spec i 0); try lia; reflexivity.
Qed.

Lemma extEntries_length (usage : list string) :
  List.length (extEntries usage) =
  (count_occ string_dec usage "clientauth"
   + count_occ string_dec usage "serverauth")%nat.
Proof.
  induction usage as [| t rest IH]; [reflexivity |].
  cbn [extEntries count_occ]. unfold extUsageTokens, lookup.
  destruct (String.eqb_spec t "clientauth") as [-> | Hc].
  - cbn. rewrite IH. lia.
  - destruct (String.eqb_spec t "serverauth") as [-> | Hs].
    + cbn. rewrite IH. lia.
    + destruct (string_dec t "clientauth"), (string_dec t "serverauth");
        try contradiction.
      exact IH.
Qed.

(** C6. For a non-empty token list, [getUsage] returns the OR of the bits of
    the tokens that name a key-usage bit (a bit is set exactly when some
    such token carries it), and one extended-usage entry per occurrence of
    [clientauth] or [serverauth], in token order, duplicates kept; tokens in
    neither table add nothing, and the call always returns. *)
Theorem getUsage_tokens (usage : list string) (ca : bool) :
  usage <> [] ->
  getUsage usage ca = (orOfBits usage, extEntries usage) /\
  (forall i, Z.testbit (fst (getUsage usage ca)) i = someTokenHasBit usage i) /\
  List.length (snd (getUsage usage ca)) =
    (count_occ string_dec usage "clientauth"
     + count_occ string_dec usage "serverauth")%nat.
Proof.
  intros Hne. rewrite (getUsage_nonempty usage ca Hne). cbn [fst snd].
  split; [reflexivity |]. split.
  - intros i. apply orOfBits_testbit.
  - apply extEntries_length.
Qed.

Lemma getUsage_tokens_witness :
  getUsage ["certsign"; "serverauth"; "bogus"; "clientauth"; "serverauth";
            "crlsign"] true =
    (96, [x509.ExtKeyUsageServerAuth; x509.ExtKeyUsageClientAuth;
          x509.ExtKeyUsageServerAuth]).
Proof.
  refine (eq_trans (proj1 (getUsage_tokens _ true _)) _).
  - discriminate.
  - reflexivity.
Defined.

(** C10. A non-empty token list in which no token is recognized yields the
    zero key usage and an empty extended-usage list, which is not what the
    defaults for the empty list give. *)
Theorem getUsage_nothing_recognized (usage : list string) (ca : bool) :
  usage <> [] ->
  (forall t, In t usage -> recognized t = false) ->
  getUsage usage ca = (0, []) /\ getUsage usage ca <> getUsage [] ca.
Proof.
  intros Hne Hun.
  rewrite (getUsage_nonempty usage ca Hne).
  destruct (unrecognized_contribute_nothing usage Hun) as [-> ->].
  split; [reflexivity |].
  destruct ca; discriminate.
Qed.

Lemma getUsage_nothing_recognized_witness :
  getUsage ["CRLSIGN"; "bogus"] false = (0, []) /\
  getUsage ["CRLSIGN"; "bogus"] false <> getUsage [] false.
Proof.
  apply (getUsage_nothing_recognized ["CRLSIGN"; "bogus"] false).
  - discriminate.
  - intros t [<- | [<- | []]]; reflexivity.
Defined.

(** ** Signature algorithm selection: properties *)

(** C4. For an RSA or ECDSA key and any hash token, [signatureAlgorithm]
    returns the algorithm of the key's family for the requested hash: the
    tokens SHA1, SHA256, SHA384 and SHA512 select their own hash and every
    other token, the empty one included, selects SHA-256. *)
Theorem signatureAlgorithm_family
    (algType : string) (k : KeyHandle) (fam : x509.PublicKeyAlgorithm) :
  keyFamily k = Some fam ->
  (exists alg, signatureAlgorithm algType k = Some alg /\
               x509.pubKeyAlgo alg = fam /\
               x509.hashOf alg = requestedHash algType /\
               alg = algorithmFor fam (requestedHash algType)) /\
  signatureAlgorithm "SHA1" k = Some (algorithmFor fam x509.SHA1) /\
  signatureAlgorithm "SHA256" k = Some (algorithmFor fam x509.SHA256) /\
  signatureAlgorithm "SHA384" k = Some (algorithmFor fam x509.SHA384) /\
  signatureAlgorithm "SHA512" k = Some (algorithmFor fam x509.SHA512) /\
  signatureAlgorithm EmptyString k = Some (algorithmFor fam x509.SHA256) /\
  (algType <> "SHA1" -> algType <> "SHA256" ->
   algType <> "SHA384" -> algType <> "SHA512" ->
   signatureAlgorithm algType k = Some (algorithmFor fam x509.SHA256)).
Proof.
  intros Hfam.
  destruct k; simpl in Hfam; inversion Hfam; subst fam; clear Hfam.
  - repeat split; try reflexivity.
    + exists (findRsaSignALg algType). split; [reflexivity |].
      unfold findRsaSignALg, requestedHash, hashTokens, lookup.
      token_cases algType; repeat split; reflexivity.
    + intros H1 H2 H3 H4. cbn [signatureAlgorithm]. unfold findRsaSignALg.
      token_cases algType; try contradiction; reflexivity.
  - repeat split; try reflexivity.
    + exists (findEcdsaSignALg algType). split; [reflexivity |].
      unfold findEcdsaSignALg, requestedHash, hashTokens, lookup.
      token_cases algType; repeat split; reflexivity.
    + intros H1 H2 H3 H4. cbn [signatureAlgorithm]. unfold findEcdsaSignALg.
      token_cases algType; try contradiction; reflexivity.
Qed.

Lemma signatureAlgorithm_family_witness :
  signatureAlgorithm "SHA384" (EcdsaPrivateKey 4 5 6) = Some x509.ECDSAWithSHA384 /\
  signatureAlgorithm "unknown" (RsaPrivateKey 15 3 3) = Some x509.SHA256WithRSA.
Proof.
  split.
  - destruct (signatureAlgorithm_family "SHA384" (EcdsaPrivateKey 4 5 6)
                x509.ECDSA eq_refl) as [_ [_ [_ [H _]]]].
    exact H.
  - destruct (signatureAlgorithm_family "unknown" (RsaPrivateKey 15 3 3)
                x509.RSA eq_refl) as [_ [_ [_ [_ [_ [_ H]]]]]].
    apply H; discriminate.
Defined.

(** ** SHA-1 and the key identifier *)

Example sha1_abc :
  map Byte.to_N (sha1.Sum (sha1.Write sha1.New (list_byte_of_string "abc")) []) =
  [0xa9; 0x99; 0x3e; 0x36; 0x47; 0x06; 0x81; 0x6a; 0xba; 0x3e;
   0x25; 0x71; 0x78; 0x50; 0xc2; 0x6c; 0x9c; 0xd0; 0xd8; 0x9d]%N.
Proof. vm_compute. reflexivity. Qed.

Example sha1_empty :
  map Byte.to_N (sha1.Sum sha1.New []) =
  [0xda; 0x39; 0xa3; 0xee; 0x5e; 0x6b; 0x4b; 0x0d; 0x32; 0x55;
   0xbf; 0xef; 0x95; 0x60; 0x18; 0x90; 0xaf; 0xd8; 0x07; 0x09]%N.
Proof. vm_compute. reflexivity. Qed.

Example sha1_two_blocks :
  map Byte.to_N
    (sha1.Sum
       (sha1.Write sha1.New
          (list_byte_of_string
             "abcdbcdecdefdefgefghfghighijhijkijkljklmklmnlmnomnopnopq")) []) =
  [0x84; 0x98; 0x3e; 0x44; 0x1c; 0x3b; 0xd2; 0x6e; 0xba; 0xae;
   0x4a; 0xa1; 0xf9; 0x51; 0x29; 0xe5; 0xe5; 0x46; 0x70; 0xf1]%N.
Proof. vm_compute. reflexivity. Qed.

(** Writing in two pieces hashes the concatenation. *)
Example sha1_split_write :
  sha1.Sum (sha1.Write (sha1.Write sha1.New (list_byte_of_string "ab"))
                       (list_byte_of_string "c")) [] =
  sha1.Sum (sha1.Write sha1.New (list_byte_of_string "abc")) [].
Proof. vm_compute. reflexivity. Qed.

Lemma checkSum_length (d : sha1.digest) :
  List.length (sha1.checkSum d) = sha1.Size.
Proof.
  unfold sha1.checkSum.
  match goal with
  | |- context [sha1.h ?d'] => destruct (sha1.h d') as [[[[h0 h1] h2] h3] h4]
  end.
  reflexivity.
Qed.

Lemma Sum_length (d : sha1.digest) (b : list byte) :
  List.length (sha1.Sum d b) = (List.length b + sha1.Size)%nat.
Proof.
  unfold sha1.Sum. now rewrite length_app, checkSum_length.
Qed.

Section BuilderProperties.

Context {K : key.Package}.

(** C8. [keyIdentifier] always returns 20 bytes, also when the
    serialization reports an error, and it depends on the key only through
    the serialized bytes: handles with the same serialization, and so two
    calls on the same handle, get the same identifier. *)
Theorem keyIdentifier_digest (pub pub' : KeyHandle) :
  List.length (keyIdentifier pub) = 20%nat /\
  keyIdentifier pub =
    sha1.Sum (sha1.Write sha1.New (fst (key.PublicKeyBitArray pub))) [] /\
  (fst (key.PublicKeyBitArray pub) = fst (key.PublicKeyBitArray pub') ->
   keyIdentifier pub = keyIdentifier pub').
Proof.
  assert (Hdef : forall p, keyIdentifier p =
            sha1.Sum (sha1.Write sha1.New (fst (key.PublicKeyBitArray p))) []).
  { intros p. unfold keyIdentifier.
    now destruct (key.PublicKeyBitArray p) as [pbyte err]. }
  repeat split.
  - rewrite Hdef. apply (Sum_length _ []).
  - apply Hdef.
  - intros Heq. now rewrite !Hdef, Heq.
Qed.

End BuilderProperties.

Lemma keyIdentifier_digest_witness :
  List.length (keyIdentifier (K := sampleKeys) (RsaPublicKey 3233 17)) = 20%nat /\
  keyIdentifier (K := sampleKeys) OtherValue =
  keyIdentifier (K := sampleKeys) (RsaPrivateKey 3233 17 413).
Proof.
  split.
  - apply (keyIdentifier_digest (K := sampleKeys) (RsaPublicKey 3233 17)
             (RsaPublicKey 3233 17)).
  - apply (keyIdentifier_digest (K := sampleKeys) OtherValue
             (RsaPrivateKey 3233 17 413)).
    reflexivity.
Defined.

(** ** Serial numbers: the arithmetic of [SetBytes] *)

Lemma byteVal_range (b : byte) : 0 <= big.byteVal b < 256.
Proof.
  unfold big.byteVal. pose proof (Byte.to_N_bounded b). lia.
Qed.

Lemma byteVal_positive (b : byte) : b <> x00 -> 0 < big.byteVal b.
Proof.
  intros Hb. pose proof (byteVal_range b) as Hr.
  assert (big.byteVal b <> 0); [| lia].
  intros Hz. apply Hb.
  assert (Byte.to_N b = 0%N) as Hn by (unfold big.byteVal in Hz; lia).
  pose proof (Byte.of_to_N b) as Hof. rewrite Hn in Hof.
  cbn in Hof. congruence.
Qed.

Lemma SetBytes_loop (buf : list byte) :
  forall z,
    fold_left (fun z b => z * 256 + big.byteVal b) buf z =
    z * 256 ^ Z.of_nat (List.length buf) + bigEndian buf.
Proof.
  induction buf as [| b rest IH]; intros z.
  - cbn. lia.
  - cbn [fold_left bigEndian List.length]. rewrite IH.
    rewrite Nat2Z.inj_succ, Z.pow_succ_r by lia. ring.
Qed.

Lemma SetBytes_bigEndian (buf : list byte) : big.SetBytes buf = bigEndian buf.
Proof.
  unfold big.SetBytes. rewrite SetBytes_loop. lia.
Qed.

Lemma bigEndian_range (buf : list byte) :
  0 <= bigEndian buf < 256 ^ Z.of_nat (List.length buf).
Proof.
  induction buf as [| b rest IH].
  - cbn. lia.
  - cbn [bigEndian List.length].
    rewrite Nat2Z.inj_succ, Z.pow_succ_r by lia.
    pose proof (byteVal_range b).
    assert (0 < 256 ^ Z.of_nat (List.length rest)) by (apply Z.pow_pos_nonneg; lia).
    nia.
Qed.

Lemma bigEndian_leading (b : byte) (rest : list byte) :
  b <> x00 -> 256 ^ Z.of_nat (List.length rest) <= bigEndian (b :: rest).
Proof.
  intros Hb. cbn [bigEndian].
  pose proof (byteVal_positive b Hb).
  pose proof (bigEndian_range rest).
  assert (0 < 256 ^ Z.of_nat (List.length rest)) by (apply Z.pow_pos_nonneg; lia).
  nia.
Qed.

Lemma list_byte_of_string_length (s : string) :
  List.length (list_byte_of_string s) = String.length s.
Proof.
  induction s as [| c s IH]; [reflexivity |].
  cbn. f_equal. exact IH.
Qed.

(** A shorter id has a smaller value than a longer id that does not begin
    with a zero byte. *)
Lemma SetBytes_shorter_smaller (id1 id2 : string) :
  (String.length id1 < String.length id2)%nat ->
  leadingByte id2 <> Some x00 ->
  big.SetBytes (list_byte_of_string id1) < big.SetBytes (list_byte_of_string id2).
Proof.
  unfold leadingByte. intros Hlen Hlead.
  rewrite !SetBytes_bigEndian.
  rewrite <- !list_byte_of_string_length in Hlen.
  pose proof (bigEndian_range (list_byte_of_string id1)) as H1.
  destruct (list_byte_of_string id2) as [| b rest]; [cbn in Hlen; lia |].
  assert (b <> x00) as Hb by (intros ->; now apply Hlead).
  pose proof (bigEndian_leading b rest Hb) as H2.
  cbn [List.length] in Hlen.
  assert (256 ^ Z.of_nat (List.length (list_byte_of_string id1))
          <= 256 ^ Z.of_nat (List.length rest)).
  { apply Z.pow_le_mono_r; lia. }
  lia.
Qed.

(** ** The template builder: properties *)

Lemma isStringInList_In (value : string) (l : list string) :
  isStringInList value l = true <-> In value l.
Proof.
  induction l as [| v rest IH]; cbn.
  - split; [discriminate | tauto].
  - destruct (String.eqb_spec v value) as [-> | Hne].
    + split; auto.
    + rewrite IH. split; [auto | intros [? | ?]; [contradiction | assumption]].
Qed.

Section TemplateProperties.

Context {K : key.Package}.

(** What a supported key yields: a template, with these fields. *)
Lemma CreateCertificateTemplate_fields (data : Certificate) :
  supportedKey (PrivateKey data) = true ->
  exists cert,
    CreateCertificateTemplate data = Some cert /\
    x509.SerialNumber cert = big.SetBytes (list_byte_of_string (Id data)) /\
    x509.Subject cert =
      pkix.mkName [Country data] [Organization data]
                  [OrganizationalUnit data] (CommonName data) /\
    x509.DNSNames cert =
      (if (0 <? List.length (AlternativeNames data))%nat
       then if isStringInList (CommonName data) (AlternativeNames data)
            then AlternativeNames data
            else (AlternativeNames data ++ [CommonName data])%list
       else []) /\
    x509.SubjectKeyId cert = keyIdentifier (key.PublicKey (PrivateKey data)) /\
    x509.BasicConstraintsValid cert = true /\
    x509.IsCA cert = CA data /\
    (x509.KeyUsages cert, x509.ExtKeyUsages cert) = getUsage (Usage data) (CA data) /\
    Some (x509.SigAlgorithm cert) =
      signatureAlgorithm (SignatureAlg data) (PrivateKey data) /\
    x509.NotBefore cert = ValidFrom data /\
    x509.NotAfter cert = ValidTo data.
Proof.
  intros Hkey. unfold CreateCertificateTemplate.
  destruct (getUsage (Usage data) (CA data)) as [keyUsage extKeyUsage].
  destruct (signatureAlgorithm (SignatureAlg data) (PrivateKey data)) as [alg |] eqn:Halg.
  2:{ unfold supportedKey, keyFamily in Hkey. unfold signatureAlgorithm in Halg.
      destruct (PrivateKey data); discriminate. }
  eexists. split; [reflexivity |].
  destruct (String.eqb_spec (CommonName data) EmptyString) as [Hcn | Hcn];
    destruct (0 <? List.length (AlternativeNames data))%nat;
    destruct (isStringInList (CommonName data) (AlternativeNames data));
    cbn; rewrite <- ?Hcn; repeat split; reflexivity.
Qed.

(** How the DNS names come out, case by case. *)
Lemma DNSNames_rule (data : Certificate) :
  supportedKey (PrivateKey data) = true ->
  exists cert,
    CreateCertificateTemplate data = Some cert /\
    (AlternativeNames data = [] -> x509.DNSNames cert = []) /\
    (AlternativeNames data <> [] ->
     In (CommonName data) (AlternativeNames data) ->
     x509.DNSNames cert = AlternativeNames data) /\
    (AlternativeNames data <> [] ->
     ~ In (CommonName data) (AlternativeNames data) ->
     x509.DNSNames cert = (AlternativeNames data ++ [CommonName data])%list).
Proof.
  intros Hkey.
  destruct (CreateCertificateTemplate_fields data Hkey)
    as (cert & Hc & _ & _ & Hdns & _).
  exists cert. split; [exact Hc |]. rewrite Hdns.
  destruct (AlternativeNames data) as [| a names] eqn:Han.
  - repeat split; intros; try reflexivity; congruence.
  - cbn [List.length Nat.ltb Nat.leb].
    destruct (isStringInList (CommonName data) (a :: names)) eqn:Hin.
    + apply isStringInList_In in Hin.
      repeat split; intros; try reflexivity; try discriminate; contradiction.
    + assert (~ In (CommonName data) (a :: names)) as Hnot.
      { intros Hi. apply isStringInList_In in Hi. congruence. }
      repeat split; intros; try reflexivity; try discriminate; contradiction.
Qed.

(** C1. On the descriptor with an empty common name and the alternative
    names [b.com], the template's DNS names are [b.com] followed by the
    empty string: the common name is appended whenever it is not in the
    list, the empty one too, where the claim keeps the list unchanged. *)
Theorem DNSNames_empty_common_name :
  option_map x509.DNSNames
    (CreateCertificateTemplate (leafDescriptor "1" EmptyString ["b.com"])) =
  Some ["b.com"; EmptyString].
Proof. reflexivity. Qed.

(** C9. The subject of the template carries the descriptor's country,
    organization and organizational unit as one-element lists, whatever the
    strings are, so its distinguished name has exactly one attribute of each
    of the three types, an empty string when the field was empty. *)
Theorem subject_lists_single_element (data : Certificate) :
  supportedKey (PrivateKey data) = true ->
  exists cert,
    CreateCertificateTemplate data = Some cert /\
    pkix.Country (x509.Subject cert) = [Country data] /\
    pkix.Organization (x509.Subject cert) = [Organization data] /\
    pkix.OrganizationalUnit (x509.Subject cert) = [OrganizationalUnit data] /\
    attributeValues pkix.oidCountry (pkix.ToRDNSequence (x509.Subject cert))
      = [Country data] /\
    attributeValues pkix.oidOrganization (pkix.ToRDNSequence (x509.Subject cert))
      = [Organization data] /\
    attributeValues pkix.oidOrganizationalUnit
      (pkix.ToRDNSequence (x509.Subject cert)) = [OrganizationalUnit data].
Proof.
  intros Hkey.
  destruct (CreateCertificateTemplate_fields data Hkey)
    as (cert & Hc & _ & Hsubj & _).
  exists cert. split; [exact Hc |]. rewrite Hsubj.
  unfold pkix.ToRDNSequence, attributeValues.
  cbn [pkix.Country pkix.Organization pkix.OrganizationalUnit pkix.CommonName].
  destruct (0 <? String.length (CommonName data))%nat; repeat split; reflexivity.
Qed.

(** C7. The subject's common name is the descriptor's; the distinguished
    name has a common-name attribute, with that value, exactly when the
    descriptor's common name is not the empty string, and none otherwise. *)
Theorem subject_common_name (data : Certificate) :
  supportedKey (PrivateKey data) = true ->
  exists cert,
    CreateCertificateTemplate data = Some cert /\
    pkix.CommonName (x509.Subject cert) = CommonName data /\
    attributeValues pkix.oidCommonName (pkix.ToRDNSequence (x509.Subject cert))
      = (if CommonName data =? EmptyString then [] else [CommonName data]).
Proof.
  intros Hkey.
  destruct (CreateCertificateTemplate_fields data Hkey)
    as (cert & Hc & _ & Hsubj & _).
  exists cert. split; [exact Hc |]. rewrite Hsubj.
  split; [reflexivity |].
  unfold pkix.ToRDNSequence, attributeValues.
  cbn [pkix.Country pkix.Organization pkix.OrganizationalUnit pkix.CommonName].
  destruct (CommonName data); reflexivity.
Qed.

End TemplateProperties.

Lemma subject_lists_single_element_witness :
  exists cert,
    CreateCertificateTemplate (K := sampleKeys) anonymousDescriptor = Some cert /\
    pkix.Country (x509.Subject cert) = [EmptyString] /\
    attributeValues pkix.oidCountry (pkix.ToRDNSequence (x509.Subject cert))
      = [EmptyString].
Proof.
  destruct (subject_lists_single_element (K := sampleKeys) anonymousDescriptor
              eq_refl) as (cert & Hc & Hcountry & _ & _ & Hattr & _).
  exists cert. repeat split; assumption.
Defined.

Lemma subject_common_name_witness :
  (exists cert,
     CreateCertificateTemplate (K := sampleKeys)
       (leafDescriptor "1" "a.com" ["b.com"]) = Some cert /\
     attributeValues pkix.oidCommonName (pkix.ToRDNSequence (x509.Subject cert))
       = ["a.com"]) /\
  (exists cert,
     CreateCertificateTemplate (K := sampleKeys) anonymousDescriptor = Some cert /\
     attributeValues pkix.oidCommonName (pkix.ToRDNSequence (x509.Subject cert))
       = []).
Proof.
  split.
  - destruct (subject_common_name (K := sampleKeys)
                (leafDescriptor "1" "a.com" ["b.com"]) eq_refl)
      as (cert & Hc & _ & Hattr).
    exists cert. split; assumption.
  - destruct (subject_common_name (K := sampleKeys) anonymousDescriptor eq_refl)
      as (cert & Hc & _ & Hattr).
    exists cert. split; assumption.
Defined.

(** C3, as stated, fails: the ids [A] and zero-byte-then-[A] are distinct and
    of different lengths, and both give the serial number 65. *)
Lemma SerialNumber_collision :
  exists c1 c2,
    CreateCertificateTemplate (K := sampleKeys) (leafDescriptor idA "a.com" [])
      = Some c1 /\
    CreateCertificateTemplate (K := sampleKeys) (leafDescriptor idNulA "a.com" [])
      = Some c2 /\
    idA <> idNulA /\
    String.length idA <> String.length idNulA /\
    x509.SerialNumber c1 = x509.SerialNumber c2.
Proof.
  eexists. eexists.
  split; [reflexivity |]. split; [reflexivity |].
  split; [discriminate |]. split; [discriminate |].
  reflexivity.
Qed.

(** The specification's scenario: the common name [a.com] is appended to the
    alternative names [b.com]; without alternative names there are no DNS
    names. *)
Example DNSNames_scenario :
  option_map x509.DNSNames
    (CreateCertificateTemplate (K := sampleKeys)
       (leafDescriptor "1" "a.com" ["b.com"])) = Some ["b.com"; "a.com"] /\
  option_map x509.DNSNames
    (CreateCertificateTemplate (K := sampleKeys)
       (leafDescriptor "1" "a.com" [])) = Some [].
Proof. split; reflexivity. Qed.

(** An unsupported key kind ends the process: no template. *)
Example CreateCertificateTemplate_unsupported_key :
  CreateCertificateTemplate (K := sampleKeys)
    (mkCertificate "1" "SE" "Example" "Web" "a.com" [] [] false
       (RsaPublicKey 3233 17) "SHA256" 0 86400) = None.
Proof. reflexivity. Qed.

(** ** Chain verification: properties *)

Section VerifierProperties.

Context {L : x509.Library}.

Variables (dnsName : string) (caBytes interCaBytes clientBytes : list byte).

(** X16. [true] is returned only after [Verify] accepted the leaf against
    the two pools built from the inputs, with the host name bound. *)
Lemma CheckCertificate_true_only_verified :
  CheckCertificate dnsName caBytes interCaBytes clientBytes = Returned true ->
  exists roots inters,
    x509.AddCert x509.NewCertPool (x509.ParseCertificate caBytes) = Some roots /\
    addAll x509.NewCertPool
      (match x509.ParseCertificates interCaBytes with
       | Some certs => certs
       | None => []
       end) = Some inters /\
    x509.Verify (x509.ParseCertificate clientBytes)
      (x509.mkVerifyOptions dnsName roots inters) = x509.VerifyOk.
Proof.
  unfold CheckCertificate, bindPanic.
  destruct (x509.AddCert x509.NewCertPool (x509.ParseCertificate caBytes))
    as [roots |]; [| discriminate].
  destruct (addAll x509.NewCertPool _) as [inters |]; [| discriminate].
  destruct (x509.Verify (x509.ParseCertificate clientBytes)
              (x509.mkVerifyOptions dnsName roots inters)) eqn:Hv;
    try discriminate.
  - intros _. now exists roots, inters.
  - destruct (x509.ParseCertificate clientBytes); discriminate.
Qed.

(** A leaf that parsed and was rejected gives [false]. *)
Lemma CheckCertificate_rejected (roots inters : x509.CertPool)
    (leaf : x509.Certificate) :
  x509.AddCert x509.NewCertPool (x509.ParseCertificate caBytes) = Some roots ->
  addAll x509.NewCertPool
    (match x509.ParseCertificates interCaBytes with
     | Some certs => certs
     | None => []
     end) = Some inters ->
  x509.ParseCertificate clientBytes = Some leaf ->
  x509.Verify (Some leaf) (x509.mkVerifyOptions dnsName roots inters)
    = x509.VerifyError ->
  CheckCertificate dnsName caBytes interCaBytes clientBytes = Returned false.
Proof.
  intros Hr Hi Hl Hv. unfold CheckCertificate, bindPanic.
  now rewrite Hr, Hi, Hl, Hv.
Qed.

(** X17. A root that does not parse reaches [AddCert] as the nil pointer;
    where [AddCert] panics on it, so does the call. *)
Lemma CheckCertificate_unparsed_root :
  x509.ParseCertificate caBytes = None ->
  x509.AddCert x509.NewCertPool None = None ->
  CheckCertificate dnsName caBytes interCaBytes clientBytes = Panicked.
Proof.
  intros Hp Ha. unfold CheckCertificate, bindPanic. now rewrite Hp, Ha.
Qed.

(** X18. Intermediates that do not parse are taken as no intermediates:
    the call gives what it gives for input that parses to an empty list. *)
Lemma CheckCertificate_unparsed_intermediates (noBytes : list byte) :
  x509.ParseCertificates interCaBytes = None ->
  x509.ParseCertificates noBytes = Some [] ->
  CheckCertificate dnsName caBytes interCaBytes clientBytes =
  CheckCertificate dnsName caBytes noBytes clientBytes.
Proof.
  intros Hn He. unfold CheckCertificate. now rewrite Hn, He.
Qed.

(** C2. When the leaf bytes do not parse, [CheckCertificate] does not return
    [false]: the nil leaf goes to [Verify], and either [Verify] panics, or it
    reports an error and the log line dereferences the nil leaf, or it
    reports success and [true] is returned. *)
Theorem CheckCertificate_unparsed_leaf :
  x509.ParseCertificate clientBytes = None ->
  CheckCertificate dnsName caBytes interCaBytes clientBytes <> Returned false.
Proof.
  intros Hp. unfold CheckCertificate, bindPanic. rewrite Hp.
  destruct (x509.AddCert x509.NewCertPool (x509.ParseCertificate caBytes))
    as [roots |]; [| discriminate].
  destruct (addAll x509.NewCertPool _) as [inters |]; [| discriminate].
  destruct (x509.Verify None (x509.mkVerifyOptions dnsName roots inters));
    discriminate.
Qed.

End VerifierProperties.

Lemma CheckCertificate_unparsed_leaf_witness :
  CheckCertificate (L := sampleLibrary) "example.com" [x30] [] [] <> Returned false.
Proof.
  apply (CheckCertificate_unparsed_leaf (L := sampleLibrary)).
  reflexivity.
Defined.

(** In the sample library: a parsed chain is accepted for its own host name
    and rejected for another; an empty leaf or an empty root makes the call
    panic. *)
Example CheckCertificate_scenarios :
  CheckCertificate (L := sampleLibrary) "example.com" [x30] [] [x30] = Returned true /\
  CheckCertificate (L := sampleLibrary) "other.com" [x30] [] [x30] = Returned false /\
  CheckCertificate (L := sampleLibrary) "example.com" [x30] [] [] = Panicked /\
  CheckCertificate (L := sampleLibrary) "example.com" [] [] [x30] = Panicked.
Proof. repeat split; reflexivity. Qed.

(** ** Further properties of the usage policy *)

Lemma orOfBits_app (u1 u2 : list string) :
  orOfBits (u1 ++ u2)%list = Z.lor (orOfBits u1) (orOfBits u2).
Proof.
  induction u1 as [| t rest IH]; cbn [orOfBits app].
  - now rewrite Z.lor_0_l.
  - destruct (lookup t keyUsageTokens); rewrite IH, ?Z.lor_assoc; reflexivity.
Qed.

Lemma extEntries_app (u1 u2 : list string) :
  extEntries (u1 ++ u2)%list = (extEntries u1 ++ extEntries u2)%list.
Proof.
  induction u1 as [| t rest IH]; cbn [extEntries app]; [reflexivity |].
  destruct (lookup t extUsageTokens); rewrite IH; reflexivity.
Qed.

(** X1. Token lists compose: for two non-empty lists, the key usage of
    their concatenation is the OR of their key usages and its extended usage
    is the concatenation of their extended usages. *)
Theorem getUsage_append (u1 u2 : list string) (ca : bool) :
  u1 <> [] -> u2 <> [] ->
  getUsage (u1 ++ u2)%list ca =
    (Z.lor (fst (getUsage u1 ca)) (fst (getUsage u2 ca)),
     (snd (getUsage u1 ca) ++ snd (getUsage u2 ca))%list).
Proof.
  intros H1 H2.
  assert (u1 ++ u2 <> [])%list as H12.
  { destruct u1; [congruence | discriminate]. }
  rewrite (getUsage_nonempty _ ca H12), (getUsage_nonempty _ ca H1),
    (getUsage_nonempty _ ca H2).
  cbn [fst snd]. now rewrite orOfBits_app, extEntries_app.
Qed.

Lemma getUsage_append_witness :
  getUsage (["certsign"; "clientauth"] ++ ["crlsign"; "serverauth"])%list false =
    (Z.lor (fst (getUsage ["certsign"; "clientauth"] false))
           (fst (getUsage ["crlsign"; "serverauth"] false)),
     (snd (getUsage ["certsign"; "clientauth"] false)
        ++ snd (getUsage ["crlsign"; "serverauth"] false))%list).
Proof.
  apply (getUsage_append ["certsign"; "clientauth"] ["crlsign"; "serverauth"] false);
    discriminate.
Defined.

Lemma orOfBits_perm (u1 u2 : list string) :
  Permutation u1 u2 -> orOfBits u1 = orOfBits u2.
Proof.
  induction 1 as [| t l l' _ IH | a b l | l l' l'' _ IH1 _ IH2]; cbn [orOfBits].
  - reflexivity.
  - destruct (lookup t keyUsageTokens); now rewrite IH.
  - destruct (lookup a keyUsageTokens) as [x |],
             (lookup b keyUsageTokens) as [y |]; try reflexivity.
    now rewrite !Z.lor_assoc, (Z.lor_comm x y).
  - congruence.
Qed.

Lemma extEntries_perm (u1 u2 : list string) :
  Permutation u1 u2 -> Permutation (extEntries u1) (extEntries u2).
Proof.
  induction 1 as [| t l l' _ IH | a b l | l l' l'' _ IH1 _ IH2]; cbn [extEntries].
  - constructor.
  - destruct (lookup t extUsageTokens); [now constructor | exact IH].
  - destruct (lookup a extUsageTokens), (lookup b extUsageTokens);
      try apply Permutation_refl.
    apply perm_swap.
  - eapply perm_trans; eassumption.
Qed.

(** X2. The order of the tokens does not matter for the key usage: two
    token lists that are permutations of each other get the same key-usage
    bits, and extended-usage lists that are permutations of each other. *)
Theorem getUsage_permutation (u1 u2 : list string) (ca : bool) :
  Permutation u1 u2 ->
  fst (getUsage u1 ca) = fst (getUsage u2 ca) /\
  Permutation (snd (getUsage u1 ca)) (snd (getUsage u2 ca)).
Proof.
  intros Hp.
  destruct u1 as [| t rest].
  - apply Permutation_nil in Hp. subst u2. split; [reflexivity | apply Permutation_refl].
  - assert (u2 <> []) as H2.
    { intros ->. apply Permutation_sym, Permutation_nil in Hp. discriminate. }
    rewrite (getUsage_nonempty (t :: rest) ca) by discriminate.
    rewrite (getUsage_nonempty u2 ca H2). cbn [fst snd].
    split; [now apply orOfBits_perm | now apply extEntries_perm].
Qed.

Lemma getUsage_permutation_witness :
  fst (getUsage ["signature"; "serverauth"; "certsign"] true) =
  fst (getUsage ["certsign"; "signature"; "serverauth"] true).
Proof.
  apply (getUsage_permutation ["signature"; "serverauth"; "certsign"]
           ["certsign"; "signature"; "serverauth"] true).
  apply Permutation_sym, (Permutation_cons_append ["signature"; "serverauth"] "certsign").
Defined.

Lemma lookup_keyUsage_values (t : string) (bit : x509.KeyUsage) :
  lookup t keyUsageTokens = Some bit ->
  (t = "crlsign" /\ bit = 64) \/ (t = "certsign" /\ bit = 32) \/
  (t = "encipherment" /\ bit = 4) \/ (t = "signature" /\ bit = 1) \/
  (t = "contentcommitment" /\ bit = 2).
Proof.
  unfold keyUsageTokens, lookup.
  token_cases t; intros H; inversion H; subst bit; cbn; tauto.
Qed.

Lemma lookup_extUsage_values (t : string) (e : x509.ExtKeyUsage) :
  lookup t extUsageTokens = Some e ->
  e = x509.ExtKeyUsageClientAuth \/ e = x509.ExtKeyUsageServerAuth.
Proof.
  unfold extUsageTokens, lookup.
  token_cases t; intros H; inversion H; tauto.
Qed.

Lemma orOfBits_within_allowed (usage : list string) :
  Z.land (orOfBits usage) allowedKeyUsage = orOfBits usage.
Proof.
  induction usage as [| t rest IH]; cbn [orOfBits]; [reflexivity |].
  destruct (lookup t keyUsageTokens) as [bit |] eqn:Hk; [| exact IH].
  rewrite Z.land_lor_distr_l, IH. f_equal.
  destruct (lookup_keyUsage_values t bit Hk)
    as [[_ ->] | [[_ ->] | [[_ ->] | [[_ ->] | [_ ->]]]]]; reflexivity.
Qed.

Lemma extEntries_client_or_server (usage : list string) :
  Forall (fun e => e = x509.ExtKeyUsageClientAuth \/ e = x509.ExtKeyUsageServerAuth)
         (extEntries usage).
Proof.
  induction usage as [| t rest IH]; cbn [extEntries]; [constructor |].
  destruct (lookup t extUsageTokens) as [e |] eqn:He; [| exact IH].
  constructor; [now apply (lookup_extUsage_values t) | exact IH].
Qed.

Lemma allowed_bits (i : Z) :
  Z.testbit allowedKeyUsage i = true ->
  i = 0 \/ i = 1 \/ i = 2 \/ i = 5 \/ i = 6.
Proof.
  change allowedKeyUsage with 103.
  intros Hb.
  destruct (Z_lt_le_dec i 0) as [Hneg | Hpos].
  { rewrite Z.testbit_neg_r in Hb by assumption. discriminate. }
  destruct (Z_lt_le_dec i 7) as [Hlt | Hge].
  - assert (i = 0 \/ i = 1 \/ i = 2 \/ i = 3 \/ i = 4 \/ i = 5 \/ i = 6)
      as Hc by lia.
    destruct Hc as [-> | [-> | [-> | [-> | [-> | [-> | ->]]]]]];
      try discriminate Hb; tauto.
  - rewrite (small_bits 103 i 7) in Hb by lia. discriminate.
Qed.

(** X3. Whatever the tokens and the CA flag, [getUsage] sets no key-usage
    bit other than DigitalSignature, ContentCommitment, KeyEncipherment,
    CertSign and CRLSign (bits 0, 1, 2, 5, 6), and every extended usage it
    returns is ClientAuth or ServerAuth. *)
Theorem getUsage_within_allowed (usage : list string) (ca : bool) :
  Z.land (fst (getUsage usage ca)) allowedKeyUsage = fst (getUsage usage ca) /\
  (forall i, Z.testbit (fst (getUsage usage ca)) i = true ->
             i = 0 \/ i = 1 \/ i = 2 \/ i = 5 \/ i = 6) /\
  Forall (fun e => e = x509.ExtKeyUsageClientAuth \/ e = x509.ExtKeyUsageServerAuth)
         (snd (getUsage usage ca)).
Proof.
  assert (Hland : Z.land (fst (getUsage usage ca)) allowedKeyUsage
                  = fst (getUsage usage ca)).
  { destruct usage as [| t rest]; [destruct ca; reflexivity |].
    rewrite (getUsage_nonempty (t :: rest) ca) by discriminate.
    apply orOfBits_within_allowed. }
  split; [exact Hland |]. split.
  - intros i Hb. rewrite <- Hland, Z.land_spec in Hb.
    apply andb_true_iff in Hb. now apply allowed_bits.
  - destruct usage as [| t rest].
    + destruct ca; cbn; repeat constructor; tauto.
    + rewrite (getUsage_nonempty (t :: rest) ca) by discriminate.
      apply extEntries_client_or_server.
Qed.

Lemma getUsage_within_allowed_witness :
  Z.testbit (fst (getUsage ["signature"; "dataencipherment"] false)) 0 = true /\
  (0 = 0 \/ 0 = 1 \/ 0 = 2 \/ 0 = 5 \/ 0 = 6).
Proof.
  split; [reflexivity |].
  apply (proj1 (proj2 (getUsage_within_allowed
                         ["signature"; "dataencipherment"] false)) 0).
  reflexivity.
Defined.

Lemma filter_recognized_bits (usage : list string) :
  orOfBits (filter recognized usage) = orOfBits usage /\
  extEntries (filter recognized usage) = extEntries usage.
Proof.
  induction usage as [| t rest [IHk IHe]]; [now split |].
  cbn [filter]. destruct (recognized t) eqn:Hr.
  - cbn [orOfBits extEntries]. now rewrite IHk, IHe.
  - destruct (unrecognized_lookups t Hr) as [Hk He].
    cbn [orOfBits extEntries]. now rewrite Hk, He.
Qed.

(** X4. Unrecognized tokens are dropped as long as one recognized token
    remains: the result on a token list is the result on its recognized
    tokens alone. *)
Theorem getUsage_drops_unrecognized (usage : list string) (ca : bool) :
  filter recognized usage <> [] ->
  getUsage usage ca = getUsage (filter recognized usage) ca.
Proof.
  intros Hf.
  assert (usage <> []) as Hu by (intros ->; now apply Hf).
  rewrite (getUsage_nonempty usage ca Hu), (getUsage_nonempty _ ca Hf).
  destruct (filter_recognized_bits usage) as [-> ->]. reflexivity.
Qed.

Lemma getUsage_drops_unrecognized_witness :
  getUsage ["Signature"; "certsign"; "client"; "serverauth"] true =
  getUsage (filter recognized ["Signature"; "certsign"; "client"; "serverauth"]) true.
Proof.
  apply (getUsage_drops_unrecognized
           ["Signature"; "certsign"; "client"; "serverauth"] true).
  discriminate.
Defined.

(** ** Further properties of the selection of the signature algorithm *)

(** X5. SHA-1, SHA-384 and SHA-512 are selected only by their exact token:
    each selector returns the family's algorithm for one of these hashes if
    and only if the token is that hash's name, returns the SHA-256 variant
    in every other case, and the two selectors pick the same hash. *)
Theorem hash_only_on_exact_token (algType : string) :
  (findRsaSignALg algType = x509.SHA1WithRSA <-> algType = "SHA1") /\
  (findRsaSignALg algType = x509.SHA384WithRSA <-> algType = "SHA384") /\
  (findRsaSignALg algType = x509.SHA512WithRSA <-> algType = "SHA512") /\
  (findEcdsaSignALg algType = x509.ECDSAWithSHA1 <-> algType = "SHA1") /\
  (findEcdsaSignALg algType = x509.ECDSAWithSHA384 <-> algType = "SHA384") /\
  (findEcdsaSignALg algType = x509.ECDSAWithSHA512 <-> algType = "SHA512") /\
  (algType <> "SHA1" -> algType <> "SHA384" -> algType <> "SHA512" ->
   findRsaSignALg algType = x509.SHA256WithRSA /\
   findEcdsaSignALg algType = x509.ECDSAWithSHA256) /\
  x509.hashOf (findRsaSignALg algType) = x509.hashOf (findEcdsaSignALg algType).
Proof.
  repeat split;
    try (intros ->; reflexivity);
    unfold findRsaSignALg, findEcdsaSignALg;
    token_cases algType; intros; try discriminate; try congruence; reflexivity.
Qed.

Lemma hash_only_on_exact_token_witness :
  findRsaSignALg "sha1" = x509.SHA256WithRSA /\
  findEcdsaSignALg "sha1" = x509.ECDSAWithSHA256.
Proof.
  destruct (hash_only_on_exact_token "sha1") as (_ & _ & _ & _ & _ & _ & H & _).
  apply H; discriminate.
Defined.

Lemma signatureAlgorithm_supported (algType : string) (k : KeyHandle)
    (fam : x509.PublicKeyAlgorithm) :
  keyFamily k = Some fam ->
  exists alg, signatureAlgorithm algType k = Some alg /\
              x509.pubKeyAlgo alg = fam /\
              x509.hashOf alg = requestedHash algType.
Proof.
  intros Hfam.
  destruct k; cbn in Hfam; inversion Hfam; subst fam; cbn [signatureAlgorithm];
    eexists; (split; [reflexivity |]);
    unfold findRsaSignALg, findEcdsaSignALg, requestedHash, hashTokens, lookup;
    token_cases algType; split; reflexivity.
Qed.

Lemma keyIdentifier_unfold {K : key.Package} (pub : KeyHandle) :
  keyIdentifier pub =
  sha1.Sum (sha1.Write sha1.New (fst (key.PublicKeyBitArray pub))) [].
Proof.
  unfold keyIdentifier. now destruct (key.PublicKeyBitArray pub).
Qed.

(** ** Further properties of the template builder *)

(** X6. [isStringInList] decides membership by exact, case-sensitive
    equality, and it distributes over concatenation. *)
Theorem isStringInList_membership (value : string) (l1 l2 : list string) :
  (isStringInList value l1 = true <-> In value l1) /\
  (isStringInList value l1 = false <-> ~ In value l1) /\
  isStringInList value (l1 ++ l2)%list =
    isStringInList value l1 || isStringInList value l2.
Proof.
  split; [apply isStringInList_In |]. split.
  - rewrite <- isStringInList_In.
    destruct (isStringInList value l1); split; congruence.
  - induction l1 as [| v rest IH]; cbn [isStringInList app]; [reflexivity |].
    destruct (v =? value); [reflexivity | exact IH].
Qed.

Lemma isStringInList_membership_witness :
  In "b.com" ["a.com"; "b.com"] /\ ~ In "B.com" ["a.com"; "b.com"].
Proof.
  split.
  - apply (proj1 (isStringInList_membership "b.com" ["a.com"; "b.com"] [])).
    reflexivity.
  - apply (proj1 (proj2 (isStringInList_membership "B.com" ["a.com"; "b.com"] []))).
    reflexivity.
Defined.

Section MoreTemplateProperties.

Context {K : key.Package}.

(** X7. The builder fails only on the key kind: it yields no template
    exactly when the private key is neither an RSA nor an ECDSA private key;
    otherwise it yields a template with valid basic constraints, the CA flag
    of the descriptor, and the validity bounds copied as they are, in
    whatever order they stand. *)
Theorem CreateCertificateTemplate_fails_iff (data : Certificate) :
  (CreateCertificateTemplate data = None <-> keyFamily (PrivateKey data) = None) /\
  (forall cert,
     CreateCertificateTemplate data = Some cert ->
     x509.BasicConstraintsValid cert = true /\
     x509.IsCA cert = CA data /\
     x509.NotBefore cert = ValidFrom data /\
     x509.NotAfter cert = ValidTo data).
Proof.
  destruct (keyFamily (PrivateKey data)) as [fam |] eqn:Hfam.
  - assert (supportedKey (PrivateKey data) = true) as Hk
        by (unfold supportedKey; now rewrite Hfam).
    destruct (CreateCertificateTemplate_fields data Hk)
      as (cert & Hc & _ & _ & _ & _ & Hbc & Hca & _ & _ & Hnb & Hna).
    rewrite Hc. split.
    + split; discriminate.
    + intros cert' Heq. inversion Heq; subst cert'. now repeat split.
  - assert (CreateCertificateTemplate data = None) as Hnone.
    { unfold CreateCertificateTemplate.
      destruct (getUsage (Usage data) (CA data)).
      unfold keyFamily in Hfam. unfold signatureAlgorithm.
      destruct (PrivateKey data); try discriminate; reflexivity. }
    rewrite Hnone. split; [tauto | discriminate].
Qed.

(** X8. The signature algorithm of the template fits the key: it belongs to
    the family of the descriptor's private key and uses the requested hash. *)
Theorem template_algorithm_fits_key (data : Certificate)
    (fam : x509.PublicKeyAlgorithm) :
  keyFamily (PrivateKey data) = Some fam ->
  exists cert,
    CreateCertificateTemplate data = Some cert /\
    x509.pubKeyAlgo (x509.SigAlgorithm cert) = fam /\
    x509.hashOf (x509.SigAlgorithm cert) = requestedHash (SignatureAlg data).
Proof.
  intros Hfam.
  assert (supportedKey (PrivateKey data) = true) as Hk
      by (unfold supportedKey; now rewrite Hfam).
  destruct (CreateCertificateTemplate_fields data Hk)
    as (cert & Hc & _ & _ & _ & _ & _ & _ & _ & Halg & _).
  destruct (signatureAlgorithm_supported (SignatureAlg data) _ _ Hfam)
    as (alg & Ha & Hf & Hh).
  rewrite Ha in Halg. inversion Halg; subst alg.
  exists cert. now repeat split.
Qed.

(** X9. The subject key identifier depends on the private key only: it is
    the 20-byte SHA-1 digest of the serialized public key, so descriptors
    with the same private key get the same identifier whatever their other
    fields are. *)
Theorem SubjectKeyId_from_key (d1 d2 : Certificate) :
  supportedKey (PrivateKey d1) = true ->
  PrivateKey d1 = PrivateKey d2 ->
  exists c1 c2,
    CreateCertificateTemplate d1 = Some c1 /\
    CreateCertificateTemplate d2 = Some c2 /\
    x509.SubjectKeyId c1 = x509.SubjectKeyId c2 /\
    List.length (x509.SubjectKeyId c1) = 20%nat /\
    x509.SubjectKeyId c1 =
      sha1.Sum (sha1.Write sha1.New
                  (fst (key.PublicKeyBitArray (key.PublicKey (PrivateKey d1))))) [].
Proof.
  intros Hk1 Heq.
  assert (supportedKey (PrivateKey d2) = true) as Hk2 by now rewrite <- Heq.
  destruct (CreateCertificateTemplate_fields d1 Hk1)
    as (c1 & Hc1 & _ & _ & _ & Hid1 & _).
  destruct (CreateCertificateTemplate_fields d2 Hk2)
    as (c2 & Hc2 & _ & _ & _ & Hid2 & _).
  exists c1, c2. rewrite Hid1, Hid2, <- Heq, keyIdentifier_unfold.
  repeat split; try assumption.
  apply (Sum_length _ []).
Qed.

(** X10. The DNS names, case by case: none without alternative names; the
    alternative names alone when the common name is among them; and the
    alternative names followed by the common name otherwise, the empty
    common name included. *)
Theorem DNSNames_cases (data : Certificate) :
  supportedKey (PrivateKey data) = true ->
  exists cert,
    CreateCertificateTemplate data = Some cert /\
    (AlternativeNames data = [] -> x509.DNSNames cert = []) /\
    (AlternativeNames data <> [] ->
     In (CommonName data) (AlternativeNames data) ->
     x509.DNSNames cert = AlternativeNames data) /\
    (AlternativeNames data <> [] ->
     ~ In (CommonName data) (AlternativeNames data) ->
     x509.DNSNames cert = (AlternativeNames data ++ [CommonName data])%list).
Proof. exact (DNSNames_rule data). Qed.

(** X11. With alternative names given, the common name is always among the
    DNS names, the alternative names come first in their order, and the
    builder adds no duplicate: DNS names are free of duplicates whenever the
    alternative names are. *)
Theorem DNSNames_common_name_reachable (data : Certificate) :
  supportedKey (PrivateKey data) = true ->
  AlternativeNames data <> [] ->
  exists cert,
    CreateCertificateTemplate data = Some cert /\
    In (CommonName data) (x509.DNSNames cert) /\
    firstn (List.length (AlternativeNames data)) (x509.DNSNames cert)
      = AlternativeNames data /\
    (NoDup (AlternativeNames data) -> NoDup (x509.DNSNames cert)).
Proof.
  intros Hkey Hne.
  destruct (DNSNames_rule data Hkey) as (cert & Hc & _ & Hin & Hout).
  exists cert. split; [exact Hc |].
  destruct (in_dec string_dec (CommonName data) (AlternativeNames data)) as [Hi | Hn].
  - rewrite (Hin Hne Hi). repeat split.
    + exact Hi.
    + apply firstn_all.
    + auto.
  - rewrite (Hout Hne Hn). repeat split.
    + apply in_or_app. right. now left.
    + rewrite firstn_app, firstn_all, Nat.sub_diag. cbn. apply app_nil_r.
    + intros Hnd.
      apply (Permutation_NoDup
               (Permutation_cons_append (AlternativeNames data) (CommonName data))).
      now constructor.
Qed.


End MoreTemplateProperties.

Lemma CreateCertificateTemplate_fails_iff_witness :
  CreateCertificateTemplate (K := sampleKeys)
    (mkCertificate "1" "SE" "Example" "Web" "a.com" [] [] false
       (EcdsaPublicKey 4 5) "SHA256" 0 86400) = None /\
  (exists cert,
     CreateCertificateTemplate (K := sampleKeys)
       (mkCertificate "1" "SE" "Example" "Web" "a.com" [] [] false
          (RsaPrivateKey 3233 17 413) "SHA256" 86400 0) = Some cert /\
     x509.NotAfter cert < x509.NotBefore cert).
Proof.
  split.
  - apply (proj1 (CreateCertificateTemplate_fails_iff (K := sampleKeys) _)).
    reflexivity.
  - set (d := mkCertificate "1" "SE" "Example" "Web" "a.com" [] [] false
                (RsaPrivateKey 3233 17 413) "SHA256" 86400 0).
    destruct (CreateCertificateTemplate (K := sampleKeys) d) as [cert |] eqn:Hc;
      [| vm_compute in Hc; discriminate Hc].
    exists cert. split; [reflexivity |].
    destruct (proj2 (CreateCertificateTemplate_fails_iff (K := sampleKeys) d)
                    cert Hc) as (_ & _ & Hnb & Hna).
    rewrite Hnb, Hna. reflexivity.
Defined.

Lemma template_algorithm_fits_key_witness :
  exists cert,
    CreateCertificateTemplate (K := sampleKeys) (caDescriptor []) = Some cert /\
    x509.pubKeyAlgo (x509.SigAlgorithm cert) = x509.ECDSA /\
    x509.hashOf (x509.SigAlgorithm cert) = x509.SHA384.
Proof.
  apply (template_algorithm_fits_key (K := sampleKeys) (caDescriptor []) x509.ECDSA).
  reflexivity.
Defined.

Lemma SubjectKeyId_from_key_witness :
  exists c1 c2,
    CreateCertificateTemplate (K := sampleKeys) (leafDescriptor "1" "a.com" [])
      = Some c1 /\
    CreateCertificateTemplate (K := sampleKeys) (leafDescriptor "2" "b.com" ["c.com"])
      = Some c2 /\
    x509.SubjectKeyId c1 = x509.SubjectKeyId c2 /\
    List.length (x509.SubjectKeyId c1) = 20%nat.
Proof.
  destruct (SubjectKeyId_from_key (K := sampleKeys)
              (leafDescriptor "1" "a.com" [])
              (leafDescriptor "2" "b.com" ["c.com"]) eq_refl eq_refl)
    as (c1 & c2 & H1 & H2 & Heq & Hlen & _).
  exists c1, c2. repeat split; assumption.
Defined.

Lemma DNSNames_cases_witness :
  exists cert,
    CreateCertificateTemplate (K := sampleKeys)
      (leafDescriptor "1" "c.com" ["b.com"; "c.com"]) = Some cert /\
    x509.DNSNames cert = ["b.com"; "c.com"].
Proof.
  destruct (DNSNames_cases (K := sampleKeys)
              (leafDescriptor "1" "c.com" ["b.com"; "c.com"]) eq_refl)
    as (cert & Hc & _ & Hin & _).
  exists cert. split; [exact Hc |].
  apply Hin; [discriminate | right; left; reflexivity].
Defined.

Lemma DNSNames_common_name_reachable_witness :
  exists cert,
    CreateCertificateTemplate (K := sampleKeys)
      (leafDescriptor "1" "a.com" ["b.com"; "c.com"]) = Some cert /\
    In "a.com" (x509.DNSNames cert) /\
    NoDup (x509.DNSNames cert).
Proof.
  destruct (DNSNames_common_name_reachable (K := sampleKeys)
              (leafDescriptor "1" "a.com" ["b.com"; "c.com"]) eq_refl)
    as (cert & Hc & Hin & _ & Hnd).
  - discriminate.
  - exists cert. split; [exact Hc |]. split; [exact Hin |].
    apply Hnd. repeat constructor; cbn; intuition discriminate.
Defined.


(** ** Further properties of serial numbers *)

Lemma byteVal_inj (b1 b2 : byte) : big.byteVal b1 = big.byteVal b2 -> b1 = b2.
Proof.
  unfold big.byteVal. intros H.
  assert (Byte.to_N b1 = Byte.to_N b2) as Hn by lia.
  pose proof (Byte.of_to_N b1) as H1. pose proof (Byte.of_to_N b2) as H2.
  rewrite Hn in H1. congruence.
Qed.

Lemma bigEndian_inj_same_length (l1 : list byte) :
  forall l2,
    List.length l1 = List.length l2 -> bigEndian l1 = bigEndian l2 -> l1 = l2.
Proof.
  induction l1 as [| b1 r1 IH]; intros [| b2 r2] Hlen Heq;
    try discriminate; [reflexivity |].
  cbn [List.length] in Hlen. injection Hlen as Hlen.
  cbn [bigEndian] in Heq. rewrite <- Hlen in Heq.
  pose proof (bigEndian_range r1) as R1.
  pose proof (bigEndian_range r2) as R2. rewrite <- Hlen in R2.
  set (P := 256 ^ Z.of_nat (List.length r1)) in *.
  assert (big.byteVal b1 = big.byteVal b2) as Hb.
  { destruct (Z.lt_trichotomy (big.byteVal b1) (big.byteVal b2)) as [Hlt | [He | Hgt]];
      [| exact He |]; exfalso.
    - assert ((big.byteVal b1 + 1) * P <= big.byteVal b2 * P)
        by (apply Z.mul_le_mono_nonneg_r; lia).
      lia.
    - assert ((big.byteVal b2 + 1) * P <= big.byteVal b1 * P)
        by (apply Z.mul_le_mono_nonneg_r; lia).
      lia. }
  rewrite Hb in Heq.
  f_equal; [now apply byteVal_inj | apply IH; [exact Hlen | lia]].
Qed.

Lemma bigEndian_strip (buf : list byte) :
  bigEndian (stripLeadingZeros buf) = bigEndian buf.
Proof.
  induction buf as [| b rest IH]; [reflexivity |].
  cbn [stripLeadingZeros].
  destruct (Byte.eqb b x00) eqn:Hb; [| reflexivity].
  apply Byte.byte_dec_bl in Hb. subst b.
  rewrite IH. cbn [bigEndian]. change (big.byteVal x00) with 0. lia.
Qed.

Lemma strip_leading_nonzero (buf : list byte) :
  match stripLeadingZeros buf with
  | [] => True
  | b :: _ => b <> x00
  end.
Proof.
  induction buf as [| b rest IH]; [exact I |].
  cbn [stripLeadingZeros].
  destruct (Byte.eqb b x00) eqn:Hb; [exact IH |].
  now apply Byte.eqb_false.
Qed.

Lemma bigEndian_inj_stripped (l1 l2 : list byte) :
  match l1 with [] => True | b :: _ => b <> x00 end ->
  match l2 with [] => True | b :: _ => b <> x00 end ->
  bigEndian l1 = bigEndian l2 -> l1 = l2.
Proof.
  intros C1 C2 Heq.
  assert (forall a b : list byte,
             match b with [] => True | c :: _ => c <> x00 end ->
             (List.length a < List.length b)%nat ->
             bigEndian a < bigEndian b) as Hshort.
  { intros a [| c rest] Hc Hlen; [cbn in Hlen; lia |].
    pose proof (bigEndian_range a). pose proof (bigEndian_leading c rest Hc).
    cbn [List.length] in Hlen.
    assert (256 ^ Z.of_nat (List.length a) <= 256 ^ Z.of_nat (List.length rest))
      by (apply Z.pow_le_mono_r; lia).
    lia. }
  destruct (Nat.lt_trichotomy (List.length l1) (List.length l2)) as [Hlt | [He | Hgt]].
  - pose proof (Hshort l1 l2 C2 Hlt). lia.
  - now apply bigEndian_inj_same_length.
  - pose proof (Hshort l2 l1 C1 Hgt). lia.
Qed.

Lemma SetBytes_equal_iff (b1 b2 : list byte) :
  big.SetBytes b1 = big.SetBytes b2 <->
  stripLeadingZeros b1 = stripLeadingZeros b2.
Proof.
  rewrite !SetBytes_bigEndian, <- (bigEndian_strip b1), <- (bigEndian_strip b2).
  split.
  - apply bigEndian_inj_stripped; apply strip_leading_nonzero.
  - intros Hs. rewrite !bigEndian_strip.
    rewrite <- (bigEndian_strip b1), <- (bigEndian_strip b2). now rewrite Hs.
Qed.

Section SerialNumberClaim.

Context {K : key.Package}.

(** C3, amended. The serial number of the template is the value of the
    bytes of the id read as a big-endian numeral; equal ids give equal serial
    numbers; and two ids of different lengths give different serial numbers
    whenever their bytes differ after the leading zero bytes are removed. *)
Theorem SerialNumber_big_endian (d1 d2 : Certificate) :
  supportedKey (PrivateKey d1) = true ->
  supportedKey (PrivateKey d2) = true ->
  exists c1 c2,
    CreateCertificateTemplate d1 = Some c1 /\
    CreateCertificateTemplate d2 = Some c2 /\
    x509.SerialNumber c1 = bigEndian (list_byte_of_string (Id d1)) /\
    x509.SerialNumber c2 = bigEndian (list_byte_of_string (Id d2)) /\
    (Id d1 = Id d2 -> x509.SerialNumber c1 = x509.SerialNumber c2) /\
    (String.length (Id d1) <> String.length (Id d2) ->
     stripLeadingZeros (list_byte_of_string (Id d1)) <>
     stripLeadingZeros (list_byte_of_string (Id d2)) ->
     x509.SerialNumber c1 <> x509.SerialNumber c2).
Proof.
  intros Hk1 Hk2.
  destruct (CreateCertificateTemplate_fields d1 Hk1) as (c1 & Hc1 & Hs1 & _).
  destruct (CreateCertificateTemplate_fields d2 Hk2) as (c2 & Hc2 & Hs2 & _).
  exists c1, c2. rewrite Hs1, Hs2.
  repeat split; try assumption; try apply SetBytes_bigEndian.
  - intros ->. reflexivity.
  - intros _ Hstrip Heq. apply Hstrip. now apply SetBytes_equal_iff.
Qed.

End SerialNumberClaim.

(** The ids [A] and [AA] of the specification's scenario: 65 and 16705. *)
Lemma SerialNumber_big_endian_witness :
  exists c1 c2,
    CreateCertificateTemplate (K := sampleKeys) (leafDescriptor "A" "a.com" [])
      = Some c1 /\
    CreateCertificateTemplate (K := sampleKeys) (leafDescriptor "AA" "a.com" [])
      = Some c2 /\
    x509.SerialNumber c1 = 65 /\
    x509.SerialNumber c2 = 16705 /\
    x509.SerialNumber c1 <> x509.SerialNumber c2.
Proof.
  destruct (SerialNumber_big_endian (K := sampleKeys)
              (leafDescriptor "A" "a.com" []) (leafDescriptor "AA" "a.com" [])
              eq_refl eq_refl)
    as (c1 & c2 & H1 & H2 & Hv1 & Hv2 & _ & Hne).
  exists c1, c2. repeat split; try assumption.
  apply Hne; discriminate.
Defined.

Section SerialNumberProperties.

Context {K : key.Package}.

(** X13. Two descriptors get the same serial number exactly when their ids
    are equal up to leading zero bytes. *)
Theorem SerialNumber_equal_iff (d1 d2 : Certificate) :
  supportedKey (PrivateKey d1) = true ->
  supportedKey (PrivateKey d2) = true ->
  exists c1 c2,
    CreateCertificateTemplate d1 = Some c1 /\
    CreateCertificateTemplate d2 = Some c2 /\
    (x509.SerialNumber c1 = x509.SerialNumber c2 <->
     stripLeadingZeros (list_byte_of_string (Id d1)) =
     stripLeadingZeros (list_byte_of_string (Id d2))).
Proof.
  intros Hk1 Hk2.
  destruct (CreateCertificateTemplate_fields d1 Hk1) as (c1 & Hc1 & Hs1 & _).
  destruct (CreateCertificateTemplate_fields d2 Hk2) as (c2 & Hc2 & Hs2 & _).
  exists c1, c2. rewrite Hs1, Hs2.
  split; [exact Hc1 |]. split; [exact Hc2 |]. apply SetBytes_equal_iff.
Qed.

(** X14. Among ids of one length the serial number is injective: two
    descriptors whose ids have the same length and that get the same serial
    number have the same id. *)
Theorem SerialNumber_injective_on_length (d1 d2 : Certificate) :
  supportedKey (PrivateKey d1) = true ->
  supportedKey (PrivateKey d2) = true ->
  String.length (Id d1) = String.length (Id d2) ->
  exists c1 c2,
    CreateCertificateTemplate d1 = Some c1 /\
    CreateCertificateTemplate d2 = Some c2 /\
    (x509.SerialNumber c1 = x509.SerialNumber c2 -> Id d1 = Id d2).
Proof.
  intros Hk1 Hk2 Hlen.
  destruct (CreateCertificateTemplate_fields d1 Hk1) as (c1 & Hc1 & Hs1 & _).
  destruct (CreateCertificateTemplate_fields d2 Hk2) as (c2 & Hc2 & Hs2 & _).
  exists c1, c2. rewrite Hs1, Hs2.
  split; [exact Hc1 |]. split; [exact Hc2 |].
  rewrite !SetBytes_bigEndian. intros Heq.
  rewrite <- !list_byte_of_string_length in Hlen.
  pose proof (bigEndian_inj_same_length _ _ Hlen Heq) as Hb.
  apply (f_equal string_of_list_byte) in Hb.
  now rewrite !string_of_list_byte_of_string in Hb.
Qed.

(** X15. The serial number is never negative and is below 256 to the power
    of the length of the id; it is zero exactly when the id is empty or made
    of zero bytes only. *)
Theorem SerialNumber_bounds (data : Certificate) :
  supportedKey (PrivateKey data) = true ->
  exists cert,
    CreateCertificateTemplate data = Some cert /\
    0 <= x509.SerialNumber cert < 256 ^ Z.of_nat (String.length (Id data)) /\
    (x509.SerialNumber cert = 0 <->
     stripLeadingZeros (list_byte_of_string (Id data)) = []).
Proof.
  intros Hk.
  destruct (CreateCertificateTemplate_fields data Hk) as (cert & Hc & Hs & _).
  exists cert. rewrite Hs. split; [exact Hc |]. split.
  - rewrite SetBytes_bigEndian, <- list_byte_of_string_length.
    apply bigEndian_range.
  - apply (SetBytes_equal_iff (list_byte_of_string (Id data)) []).
Qed.

End SerialNumberProperties.

Lemma SerialNumber_equal_iff_witness :
  exists c1 c2,
    CreateCertificateTemplate (K := sampleKeys) (leafDescriptor idA "a.com" [])
      = Some c1 /\
    CreateCertificateTemplate (K := sampleKeys) (leafDescriptor idNulA "a.com" [])
      = Some c2 /\
    x509.SerialNumber c1 = x509.SerialNumber c2.
Proof.
  destruct (SerialNumber_equal_iff (K := sampleKeys)
              (leafDescriptor idA "a.com" []) (leafDescriptor idNulA "a.com" [])
              eq_refl eq_refl) as (c1 & c2 & H1 & H2 & Hiff).
  exists c1, c2. split; [exact H1 |]. split; [exact H2 |].
  apply Hiff. reflexivity.
Defined.

Lemma SerialNumber_injective_on_length_witness :
  exists c1 c2,
    CreateCertificateTemplate (K := sampleKeys) (leafDescriptor "AB" "a.com" [])
      = Some c1 /\
    CreateCertificateTemplate (K := sampleKeys) (leafDescriptor "BA" "a.com" [])
      = Some c2 /\
    (x509.SerialNumber c1 = x509.SerialNumber c2 -> "AB" = "BA").
Proof.
  apply (SerialNumber_injective_on_length (K := sampleKeys)
           (leafDescriptor "AB" "a.com" []) (leafDescriptor "BA" "a.com" []));
    reflexivity.
Defined.

Lemma SerialNumber_bounds_witness :
  exists cert,
    CreateCertificateTemplate (K := sampleKeys)
      (leafDescriptor EmptyString "a.com" []) = Some cert /\
    x509.SerialNumber cert = 0.
Proof.
  destruct (SerialNumber_bounds (K := sampleKeys)
              (leafDescriptor EmptyString "a.com" []) eq_refl)
    as (cert & Hc & _ & Hz).
  exists cert. split; [exact Hc |]. apply Hz. reflexivity.
Defined.

(** ** Further properties of chain verification *)

Lemma CheckCertificate_true_only_verified_witness :
  exists roots inters : @x509.CertPool sampleLibrary,
    @x509.AddCert sampleLibrary (@x509.NewCertPool sampleLibrary)
      (@x509.ParseCertificate sampleLibrary [x30]) = Some roots /\
    addAll (L := sampleLibrary) (@x509.NewCertPool sampleLibrary) [] = Some inters /\
    @x509.Verify sampleLibrary (@x509.ParseCertificate sampleLibrary [x30])
      (x509.mkVerifyOptions "example.com" roots inters) = x509.VerifyOk.
Proof.
  apply (CheckCertificate_true_only_verified (L := sampleLibrary)
           "example.com" [x30] [] [x30]).
  reflexivity.
Defined.

Lemma CheckCertificate_unparsed_root_witness :
  CheckCertificate (L := sampleLibrary) "example.com" [x02] [] [x30] = Panicked.
Proof.
  apply (CheckCertificate_unparsed_root (L := sampleLibrary)
           "example.com" [x02] [] [x30]); reflexivity.
Defined.

Lemma CheckCertificate_unparsed_intermediates_witness :
  CheckCertificate (L := sampleLibrary) "example.com" [x30] [x02] [x30] =
  CheckCertificate (L := sampleLibrary) "example.com" [x30] [] [x30].
Proof.
  apply (CheckCertificate_unparsed_intermediates (L := sampleLibrary)
           "example.com" [x30] [x02] [x30] []); reflexivity.
Defined.

Section MoreVerifierProperties.

Context {L : x509.Library}.



End MoreVerifierProperties.


(** ** The key usage as a function of the set of tokens *)

Lemma someTokenHasBit_same_tokens (u1 u2 : list string) (i : Z) :
  (forall t, In t u1 <-> In t u2) ->
  someTokenHasBit u1 i = someTokenHasBit u2 i.
Proof.
  intros Hset. unfold someTokenHasBit.
  apply eq_true_iff_eq. rewrite !existsb_exists.
  split; intros (t & Ht & Hb); exists t; (split; [now apply Hset | exact Hb]).
Qed.

(** X20. The key usage depends on the set of tokens only: two token lists
    with the same elements, in any order and with any repetitions, get the
    same key-usage bits. *)
Theorem getUsage_key_usage_of_token_set (u1 u2 : list string) (ca : bool) :
  (forall t, In t u1 <-> In t u2) ->
  fst (getUsage u1 ca) = fst (getUsage u2 ca).
Proof.
  intros Hset.
  destruct u1 as [| a1 r1], u2 as [| a2 r2].
  - reflexivity.
  - exfalso. apply (proj2 (Hset a2)). now left.
  - exfalso. apply (proj1 (Hset a1)). now left.
  - rewrite (getUsage_nonempty (a1 :: r1) ca), (getUsage_nonempty (a2 :: r2) ca)
      by discriminate.
    cbn [fst]. apply Z.bits_inj'. intros i _.
    rewrite !orOfBits_testbit. now apply someTokenHasBit_same_tokens.
Qed.

Lemma getUsage_key_usage_of_token_set_witness :
  fst (getUsage ["crlsign"; "certsign"; "crlsign"] true) =
  fst (getUsage ["certsign"; "crlsign"] true).
Proof.
  apply (getUsage_key_usage_of_token_set
           ["crlsign"; "certsign"; "crlsign"] ["certsign"; "crlsign"] true).
  intros t. cbn. tauto.
Defined.
